(** * ContainerObject: the hierarchy protection engine

    A shallow embedding of [ContainerObject.cpp]: the visibility traversal
    [HideHierarchy], the material resolver [HideMaterials], the lock state
    machine [ToggleProtect] / [ContainerProtect] with [HideNodes], and the
    versioned [Read] / [Write] of the lock state. *)

From Stdlib Require Import ZArith List Bool.
From stdpp Require Import base option list numbers strings gmap.
Import ListNotations.
Local Open Scope Z_scope.

(** ** Host data: bits, parameter containers, nodes *)

(** The six node bits [HideHierarchy] drives through [ChangeNBit]. *)
Inductive NBIT :=
  | NBIT_OHIDE | NBIT_TL1_HIDE | NBIT_TL2_HIDE
  | NBIT_TL3_HIDE | NBIT_TL4_HIDE | NBIT_THIDE.

Inductive NBITCONTROL := NBITCONTROL_SET | NBITCONTROL_CLEAR.

Record NBits := mkNBits {
  ohide : bool; tl1_hide : bool; tl2_hide : bool;
  tl3_hide : bool; tl4_hide : bool; thide : bool }.

Definition GetNBit_of (b : NBIT) (nb : NBits) : bool :=
  match b with
  | NBIT_OHIDE => ohide nb | NBIT_TL1_HIDE => tl1_hide nb
  | NBIT_TL2_HIDE => tl2_hide nb | NBIT_TL3_HIDE => tl3_hide nb
  | NBIT_TL4_HIDE => tl4_hide nb | NBIT_THIDE => thide nb
  end.

Definition control_value (c : NBITCONTROL) : bool :=
  match c with NBITCONTROL_SET => true | NBITCONTROL_CLEAR => false end.

Definition ChangeNBit_of (b : NBIT) (c : NBITCONTROL) (nb : NBits) : NBits :=
  let v := control_value c in
  match b with
  | NBIT_OHIDE    => mkNBits v (tl1_hide nb) (tl2_hide nb) (tl3_hide nb) (tl4_hide nb) (thide nb)
  | NBIT_TL1_HIDE => mkNBits (ohide nb) v (tl2_hide nb) (tl3_hide nb) (tl4_hide nb) (thide nb)
  | NBIT_TL2_HIDE => mkNBits (ohide nb) (tl1_hide nb) v (tl3_hide nb) (tl4_hide nb) (thide nb)
  | NBIT_TL3_HIDE => mkNBits (ohide nb) (tl1_hide nb) (tl2_hide nb) v (tl4_hide nb) (thide nb)
  | NBIT_TL4_HIDE => mkNBits (ohide nb) (tl1_hide nb) (tl2_hide nb) (tl3_hide nb) v (thide nb)
  | NBIT_THIDE    => mkNBits (ohide nb) (tl1_hide nb) (tl2_hide nb) (tl3_hide nb) (tl4_hide nb) v
  end.

(** [BIT_ACTIVE] of the host's legacy bit field ([1 << 1]). *)
Definition BIT_ACTIVE : Z := 2.

(** A link stored in a parameter: the handle of a material, or unset. *)
Definition BaseLink := option nat.

(** [GeData], as far as the engine reads it. Booleans are stored as
    [DA_LONG], as the host does. *)
Inductive GeData :=
  | DA_NIL
  | DA_LONG (z : Z)
  | DA_STRING (s : string)
  | DA_ALIASLINK (l : BaseLink).

(** [BaseContainer::GetString] and [GetBool] with their default presets. *)
Definition GetString (id : Z) (bc : gmap Z GeData) : string :=
  match bc !! id with Some (DA_STRING s) => s | _ => EmptyString end.

Definition GetBool (id : Z) (bc : gmap Z GeData) : bool :=
  match bc !! id with Some (DA_LONG z) => negb (z =? 0) | _ => false end.

Definition IsEmpty (s : string) : bool :=
  match s with EmptyString => true | String _ _ => false end.

(** An icon bitmap is an opaque payload here. *)
Definition BaseBitmap := list Z.

(** The members of [class ContainerObject]. *)
Record ContainerObject := mkContainerObject {
  m_customIcon : option BaseBitmap;
  m_protected : bool;
  m_protectionHash : string }.

(** Which of the host's base classes a node derives from. *)
Inductive NodeKind := KObject | KTag | KMaterial.

(** A [BaseList2D]: its bits, its type, its parameter container, its plugin
    node data, its tag chain ([GetFirstTag] / [GetNext]) and its child
    chain ([GetDown] / [GetNext]). *)
Local Unset Elimination Schemes.
Inductive BaseList2D := mkNode {
  nbits : NBits;
  bits : Z;
  kind : NodeKind;
  GetType : Z;
  GetDataInstance : gmap Z GeData;
  GetNodeData : option ContainerObject;
  tags : list BaseList2D;
  down : list BaseList2D }.
Local Set Elimination Schemes.

Definition set_nbits (nb : NBits) (n : BaseList2D) : BaseList2D :=
  mkNode nb (bits n) (kind n) (GetType n) (GetDataInstance n) (GetNodeData n) (tags n) (down n).
Definition set_bits (b : Z) (n : BaseList2D) : BaseList2D :=
  mkNode (nbits n) b (kind n) (GetType n) (GetDataInstance n) (GetNodeData n) (tags n) (down n).
Definition set_nodedata (d : option ContainerObject) (n : BaseList2D) : BaseList2D :=
  mkNode (nbits n) (bits n) (kind n) (GetType n) (GetDataInstance n) d (tags n) (down n).
Definition set_tags (t : list BaseList2D) (n : BaseList2D) : BaseList2D :=
  mkNode (nbits n) (bits n) (kind n) (GetType n) (GetDataInstance n) (GetNodeData n) t (down n).
Definition set_down (d : list BaseList2D) (n : BaseList2D) : BaseList2D :=
  mkNode (nbits n) (bits n) (kind n) (GetType n) (GetDataInstance n) (GetNodeData n) (tags n) d.

Definition ChangeNBit (b : NBIT) (c : NBITCONTROL) (n : BaseList2D) : BaseList2D :=
  set_nbits (ChangeNBit_of b c (nbits n)) n.
Definition GetNBit (b : NBIT) (n : BaseList2D) : bool := GetNBit_of b (nbits n).

(** [DelBit(mask)] is [bits &= ~mask]; [GetBit(mask)] is [bits & mask]. *)
Definition DelBit (mask : Z) (n : BaseList2D) : BaseList2D :=
  set_bits (Z.land (bits n) (Z.lnot mask)) n.
Definition GetBit (mask : Z) (n : BaseList2D) : bool :=
  negb (Z.land (bits n) mask =? 0).

(** [IsInstanceOf(Obase)]. *)
Definition IsInstanceOf_Obase (n : BaseList2D) : bool :=
  match kind n with KObject => true | _ => false end.

(** The host's type id of texture tags and the id of their material link. *)
Definition Ttexture : Z := 5616.
Definition TEXTURETAG_MATERIAL : Z := 1010.

(** Symbols of the plugin's headers and its utilities: the plugin id, the
    ids of the parameters read by the engine, and the one-way digest. *)
Class Symbols := {
  Ocontainer : Z;
  CONTAINEROBJECT_PROTECTIONHASH : Z;
  NRCONTAINER_HIDE_TAGS : Z;
  NRCONTAINER_HIDE_MATERIALS : Z;
  NRCONTAINER_GENERATOR_CHECKMARK : Z;
  NRCONTAINER_INFO_NAME : Z;
  NRCONTAINER_INFO_VERSION : Z;
  NRCONTAINER_INFO_URL : Z;
  NRCONTAINER_INFO_AUTHOR : Z;
  NRCONTAINER_INFO_AUTHOR_EMAIL : Z;
  NRCONTAINER_INFO_DESCRIPTION : Z;
  HashString : string -> string }.

(** ** The document side: undo log, materials, user interaction *)

Inductive UNDOTYPE := UNDOTYPE_BITS | UNDOTYPE_CHANGE_SMALL.

Inductive UndoItem :=
  | StartUndo
  | AddUndo (t : UNDOTYPE) (snapshot : BaseList2D)
  | EndUndo.

(** What [ToggleProtect] does to the user and the host, in order. *)
Inductive Event :=
  | EvPasswordDialog (confirm allowCancel : bool) (answer : option string)
  | EvMessageDialog_PASSWORD_INVALID
  | EvMessage_MSG_CHANGE
  | EvSetDirty_DESCRIPTION
  | EvEventAdd.

(** The document side of a call: the document's material list (a link
    handle is a position in it), the undo log, and the interaction trace. *)
Record World := mkWorld {
  materials : list BaseList2D;
  undos : list UndoItem;
  trace : list Event }.

Definition add_undos (u : list UndoItem) (w : World) : World :=
  mkWorld (materials w) (undos w ++ u) (trace w).
Definition set_materials (m : list BaseList2D) (w : World) : World :=
  mkWorld m (undos w) (trace w).
Definition log_event (e : Event) (w : World) : World :=
  mkWorld (materials w) (undos w) (trace w ++ [e]).

(** [GetParameter(id, data, flags)]: the parameter, when the node has it. *)
Definition GetParameter (id : Z) (n : BaseList2D) : option GeData :=
  GetDataInstance n !! id.

(** [GeData::GetLink(doc, Mbase)]: the position of the linked material in
    the material list, or null when the datum is no link, the link is
    unset or dangling, or the target is no material. The host evaluates
    the link; here it is a lookup in the material list, whether or not a
    document pointer is passed. *)
Definition GetLink_Mbase (data : GeData) (mats : list BaseList2D) : option nat :=
  match data with
  | DA_ALIASLINK (Some i) =>
    match mats !! i with
    | Some m => match kind m with KMaterial => Some i | _ => None end
    | None => None
    end
  | _ => None
  end.

(** The persisted stream of a [HyperFile]: typed values in order. *)
Inductive HFChunk :=
  | HF_Bool (b : bool)
  | HF_String (s : string)
  | HF_Image (bmp : BaseBitmap).

Definition ReadBool (hf : list HFChunk) : option (bool * list HFChunk) :=
  match hf with HF_Bool b :: rest => Some (b, rest) | _ => None end.
Definition ReadString (hf : list HFChunk) : option (string * list HFChunk) :=
  match hf with HF_String s :: rest => Some (s, rest) | _ => None end.
Definition ReadImage (hf : list HFChunk) : option (BaseBitmap * list HFChunk) :=
  match hf with HF_Image b :: rest => Some (b, rest) | _ => None end.
Definition WriteBool (b : bool) (hf : list HFChunk) : option (list HFChunk) :=
  Some (hf ++ [HF_Bool b]).
Definition WriteString (s : string) (hf : list HFChunk) : option (list HFChunk) :=
  Some (hf ++ [HF_String s]).
Definition WriteImage (b : BaseBitmap) (hf : list HFChunk) : option (list HFChunk) :=
  Some (hf ++ [HF_Image b]).

(** The base class does nothing in [Init], [Read] and [Write] and reports
    success. *)
Definition super_Init : bool := true.
Definition super_Read : bool := true.
Definition super_Write : bool := true.

Section Engine.
Context {Sym : Symbols}.

(** ** [ContainerIsProtected] *)

(** [op] may be null; [hash] is the out parameter, [None] for a null
    pointer. The result is the returned flag and the out parameter after
    the call. *)
Definition ContainerIsProtected (op : option BaseList2D) (hash : option string)
  : bool * option string :=
  match op with
  | None => (false, hash)
  | Some o =>
    if negb (GetType o =? Ocontainer) then (false, hash)
    else match GetNodeData o with
         | None => (false, hash)
         | Some data =>
           if m_protected data
           then (true, match hash with
                       | Some _ => Some (m_protectionHash data)
                       | None => None
                       end)
           else (false, hash)
         end
  end.

(** ** [HideHierarchy] *)

(** The six [ChangeNBit] calls and [DelBit(BIT_ACTIVE)] of the loop body. *)
Definition toggle_bits (hide : bool) (root : BaseList2D) : BaseList2D :=
  let control := if hide then NBITCONTROL_SET else NBITCONTROL_CLEAR in
  let root := ChangeNBit NBIT_OHIDE control root in
  let root := ChangeNBit NBIT_TL1_HIDE control root in
  let root := ChangeNBit NBIT_TL2_HIDE control root in
  let root := ChangeNBit NBIT_TL3_HIDE control root in
  let root := ChangeNBit NBIT_TL4_HIDE control root in
  let root := ChangeNBit NBIT_THIDE control root in
  DelBit BIT_ACTIVE root.

(** The local [hideChildren] of the loop body. *)
Definition hideChildren (root : BaseList2D) : bool :=
  if IsInstanceOf_Obase root then
    let bc := GetDataInstance root in
    if negb (IsEmpty (GetString CONTAINEROBJECT_PROTECTIONHASH bc)) then false
    else if fst (ContainerIsProtected (Some root) None) then false
    else true
  else true.

(** One turn of the [while] loop on [root]: the undo entry, the bits, and
    the recursive call on [root->GetDown()], which walks the whole child
    chain. The result is the node after the turn and the undo entries
    added, in order. *)
Fixpoint HideHierarchy_turn (hide doc : bool) (root : BaseList2D) {struct root}
  : BaseList2D * list UndoItem :=
  let undo := if doc then [AddUndo UNDOTYPE_BITS root] else [] in
  let root' := toggle_bits hide root in
  if hideChildren root' then
    let '(d, u) :=
      (fix chain (l : list BaseList2D) : list BaseList2D * list UndoItem :=
         match l with
         | [] => ([], [])
         | c :: next =>
           let '(c', uc) := HideHierarchy_turn hide doc c in
           let '(next', un) := chain next in
           (c' :: next', uc ++ un)
         end) (down root) in
    (set_down d root', undo ++ u)
  else (root', undo).

(** The loop over the sibling chain starting at [root] (the empty chain is
    the null pointer). With [sameLevel = false] it stops after one turn. *)
Fixpoint HideHierarchy_chain (hide doc : bool) (root : list BaseList2D)
  : list BaseList2D * list UndoItem :=
  match root with
  | [] => ([], [])
  | r :: next =>
    let '(r', ur) := HideHierarchy_turn hide doc r in
    let '(next', un) := HideHierarchy_chain hide doc next in
    (r' :: next', ur ++ un)
  end.

Definition HideHierarchy (root : list BaseList2D) (hide doc sameLevel : bool)
  : list BaseList2D * list UndoItem :=
  if sameLevel then HideHierarchy_chain hide doc root
  else match root with
       | [] => ([], [])
       | r :: next =>
         let '(r', ur) := HideHierarchy_turn hide doc r in (r' :: next, ur)
       end.

(** ** [HideMaterials] *)

(** The body of the tag loop: for a texture tag whose material link
    resolves, [HideHierarchy(mat, hide, doc, false)] on the material chain
    starting at the resolved material. *)
Definition HideMaterials_tag (hide doc : bool) (tag : BaseList2D) (w : World) : World :=
  if GetType tag =? Ttexture then
    match GetParameter TEXTURETAG_MATERIAL tag with
    | Some data =>
      match GetLink_Mbase data (materials w) with
      | Some i =>
        let '(mat, u) := HideHierarchy (drop i (materials w)) hide doc false in
        add_undos u (set_materials (take i (materials w) ++ mat) w)
      | None => w
      end
    | None => w
    end
  else w.

(** The tag loop of [op], then the loop over [op->GetDown()] with the
    recursive call on every child. *)
Fixpoint HideMaterials (op : BaseList2D) (hide doc : bool) (w : World) {struct op} : World :=
  let w := fold_left (fun w tag => HideMaterials_tag hide doc tag w) (tags op) w in
  (fix children (l : list BaseList2D) (w : World) : World :=
     match l with
     | [] => w
     | child :: next => children next (HideMaterials child hide doc w)
     end) (down op) w.

(** ** [ContainerObject::HideNodes] *)

Definition HideNodes (op : BaseList2D) (doc hide : bool) (w : World)
  : BaseList2D * World :=
  if hide then
    let bc := GetDataInstance op in
    let '(d, u) := HideHierarchy (down op) true doc true in
    let op := set_down d op in
    let w := add_undos u w in
    let '(op, w) :=
      if GetBool NRCONTAINER_HIDE_TAGS bc then
        let '(t, u) := HideHierarchy (tags op) true doc true in
        (set_tags t op, add_undos u w)
      else (op, w) in
    let w :=
      if GetBool NRCONTAINER_HIDE_MATERIALS bc then HideMaterials op true doc w
      else w in
    (op, w)
  else
    let '(d, u) := HideHierarchy (down op) false doc true in
    let op := set_down d op in
    let w := add_undos u w in
    let '(t, u) := HideHierarchy (tags op) false doc true in
    let op := set_tags t op in
    let w := add_undos u w in
    let w := HideMaterials op false doc w in
    (op, w).

(** ** [ContainerObject::ToggleProtect] *)

(** The three calls that end [ToggleProtect]. *)
Definition notify_change (w : World) : World :=
  log_event EvEventAdd
    (log_event EvSetDirty_DESCRIPTION (log_event EvMessage_MSG_CHANGE w)).

Definition set_protected (b : bool) (this : ContainerObject) : ContainerObject :=
  mkContainerObject (m_customIcon this) b (m_protectionHash this).
Definition set_protectionHash (h : string) (this : ContainerObject) : ContainerObject :=
  mkContainerObject (m_customIcon this) (m_protected this) h.

(** [this] is the node data of [op]; [doc] tells whether
    [op->GetDocument()] is non-null; [PasswordDialog confirm allowCancel]
    is the answer of the password dialog, [None] when it is dismissed.
    A node always has its parameter container here, so the early return on
    a null [GetDataInstance()] has no counterpart. *)
Definition ToggleProtect (PasswordDialog : bool -> bool -> option string)
    (doc : bool) (op : BaseList2D) (w : World) : BaseList2D * World :=
  let w :=
    if doc then add_undos [StartUndo; AddUndo UNDOTYPE_CHANGE_SMALL op; EndUndo] w
    else w in
  match GetNodeData op with
  | None => (op, w)
  | Some this =>
    if negb (m_protected this) then
      let answer := PasswordDialog false true in
      let w := log_event (EvPasswordDialog false true answer) w in
      match answer with
      | None => (op, w)
      | Some password =>
        let hashed := HashString password in
        let this := set_protected true this in
        let this := set_protectionHash hashed this in
        let op := set_nodedata (Some this) op in
        let '(op, w) := HideNodes op doc true w in
        (op, notify_change w)
      end
    else
      let emptyPassHash := HashString EmptyString in
      let '(unlock, w) :=
        if String.eqb (m_protectionHash this) emptyPassHash then (true, w)
        else
          let answer := PasswordDialog true true in
          let w := log_event (EvPasswordDialog true true answer) w in
          match answer with
          | Some password =>
            let unlock := String.eqb (m_protectionHash this) (HashString password) in
            (unlock, if negb unlock then log_event EvMessageDialog_PASSWORD_INVALID w else w)
          | None => (false, w)
          end in
      let '(op, w) :=
        if unlock then
          let this := set_protected false this in
          HideNodes (set_nodedata (Some this) op) doc false w
        else (op, w) in
      (op, notify_change w)
  end.

(** ** [ContainerProtect] *)

(** The result is the returned flag, the node behind [op] and the world. *)
Definition ContainerProtect (op : option BaseList2D) (pass hash : string)
    (packup : bool) (w : World) : bool * option BaseList2D * World :=
  match op with
  | None => (false, op, w)
  | Some o =>
    if negb (GetType o =? Ocontainer) then (false, op, w)
    else match GetNodeData o with
         | None => (false, op, w)
         | Some data =>
           if m_protected data then (false, op, w)
           else
             let hash := if IsEmpty hash then HashString pass else hash in
             let data := set_protected true data in
             let data := set_protectionHash hash data in
             let o := set_nodedata (Some data) o in
             let '(o, w) := if packup then HideNodes o false packup w else (o, w) in
             (true, Some o, w)
         end
  end.

(** ** [Init], [Read], [Write] *)

Definition SetBool (id : Z) (b : bool) (bc : gmap Z GeData) : gmap Z GeData :=
  <[id := DA_LONG (if b then 1 else 0)]> bc.
Definition SetString (id : Z) (s : string) (bc : gmap Z GeData) : gmap Z GeData :=
  <[id := DA_STRING s]> bc.

Definition set_customIcon (i : option BaseBitmap) (this : ContainerObject) : ContainerObject :=
  mkContainerObject i (m_protected this) (m_protectionHash this).
Definition set_data (bc : gmap Z GeData) (n : BaseList2D) : BaseList2D :=
  mkNode (nbits n) (bits n) (kind n) (GetType n) bc (GetNodeData n) (tags n) (down n).

(** [Init] on the members [this] and on [node]. *)
Definition Init (this : ContainerObject) (node : option BaseList2D)
  : bool * ContainerObject * option BaseList2D :=
  match node with
  | None => (false, this, node)
  | Some n =>
    if negb super_Init then (false, this, node)
    else
      let this := set_customIcon None this in
      let this := set_protected false this in
      let this := set_protectionHash EmptyString this in
      let bc := GetDataInstance n in
      let bc := SetBool NRCONTAINER_HIDE_TAGS false bc in
      let bc := SetBool NRCONTAINER_HIDE_MATERIALS true bc in
      let bc := SetBool NRCONTAINER_GENERATOR_CHECKMARK true bc in
      let bc := SetString NRCONTAINER_INFO_NAME EmptyString bc in
      let bc := SetString NRCONTAINER_INFO_VERSION EmptyString bc in
      let bc := SetString NRCONTAINER_INFO_URL EmptyString bc in
      let bc := SetString NRCONTAINER_INFO_AUTHOR EmptyString bc in
      let bc := SetString NRCONTAINER_INFO_AUTHOR_EMAIL EmptyString bc in
      let bc := SetString NRCONTAINER_INFO_DESCRIPTION EmptyString bc in
      (true, this, Some (set_data bc n))
  end.

(** [Read]: the returned flag, the members and the rest of the stream. A
    failed read leaves the members as they are at that point. *)
Definition Read (this : ContainerObject) (hf : list HFChunk) (level : Z)
  : bool * ContainerObject * list HFChunk :=
  let result := super_Read in
  if negb result then (result, this, hf)
  else
    match ReadBool hf with
    | None => (false, this, hf)
    | Some (hasImage, hf) =>
      let icon :=
        if hasImage then
          let this := set_customIcon (Some []) this in
          match ReadImage hf with
          | None => (false, this, hf)
          | Some (bmp, hf) => (true, set_customIcon (Some bmp) this, hf)
          end
        else (true, set_customIcon None this, hf) in
      let '(ok, this, hf) := icon in
      if negb ok then (false, this, hf)
      else if 1000 <=? level then
        match ReadBool hf with
        | None => (false, this, hf)
        | Some (p, hf) =>
          let this := set_protected p this in
          if m_protected this then
            match ReadString hf with
            | None => (false, this, hf)
            | Some (h, hf) => (result, set_protectionHash h this, hf)
            end
          else (result, this, hf)
        end
      else (result, this, hf)
    end.

(** [Write]: the returned flag and the stream after the call. *)
Definition Write (this : ContainerObject) (hf : list HFChunk) : bool * list HFChunk :=
  let result := super_Write in
  if negb result then (result, hf)
  else
    match WriteBool (bool_decide (m_customIcon this <> None)) hf with
    | None => (false, hf)
    | Some hf =>
      let icon :=
        match m_customIcon this with
        | Some bmp => WriteImage bmp hf
        | None => Some hf
        end in
      match icon with
      | None => (false, hf)
      | Some hf =>
        match WriteBool (m_protected this) hf with
        | None => (false, hf)
        | Some hf =>
          if m_protected this then
            match WriteString (m_protectionHash this) hf with
            | None => (false, hf)
            | Some hf => (result, hf)
            end
          else (result, hf)
        end
      end
    end.

End Engine.

(** ** Vocabulary of the statements *)

(** The node reached from [n] by following child positions. *)
Fixpoint node_at (p : list nat) (n : BaseList2D) : option BaseList2D :=
  match p with
  | [] => Some n
  | i :: p' => match down n !! i with Some c => node_at p' c | None => None end
  end.

(** The node reached from a sibling chain: a position in the chain, then
    child positions. *)
Definition chain_at (p : list nat) (chain : list BaseList2D) : option BaseList2D :=
  match p with
  | [] => None
  | i :: p' => match chain !! i with Some n => node_at p' n | None => None end
  end.

(** All six bits of [n] have the value [v]. *)
Definition shows (v : bool) (n : BaseList2D) : Prop :=
  forall b : NBIT, GetNBit b n = v.

Definition nbits_all (v : bool) : NBits := mkNBits v v v v v v.

Definition visibleb (n : BaseList2D) : bool :=
  negb (ohide (nbits n)) && negb (tl1_hide (nbits n)) && negb (tl2_hide (nbits n))
  && negb (tl3_hide (nbits n)) && negb (tl4_hide (nbits n)) && negb (thide (nbits n)).

Definition hiddenb (n : BaseList2D) : bool :=
  ohide (nbits n) && tl1_hide (nbits n) && tl2_hide (nbits n)
  && tl3_hide (nbits n) && tl4_hide (nbits n) && thide (nbits n).

(** Every node of the tree under [n], [n] included, is visible. *)
Fixpoint all_visible (n : BaseList2D) : bool :=
  visibleb n && forallb all_visible (down n).

Section Vocabulary.
Context {Sym : Symbols}.

(** Whether the traversal that has reached [n] also reaches the node at
    [p] below it: every node on the way lets the traversal descend. *)
Fixpoint visits_from (p : list nat) (n : BaseList2D) : bool :=
  match p with
  | [] => true
  | i :: p' =>
    hideChildren n &&
    match down n !! i with Some c => visits_from p' c | None => false end
  end.

(** Whether [HideHierarchy(root, _, _, sameLevel)] visits the node at [p]
    of the chain [root]. *)
Definition visits (sameLevel : bool) (root : list BaseList2D) (p : list nat) : bool :=
  match p with
  | [] => false
  | i :: p' =>
    (sameLevel || (i =? 0)%nat) &&
    match root !! i with Some n => visits_from p' n | None => false end
  end.

(** The parameter the tag loop of [HideMaterials] reads from [tag]. *)
Definition texture_link (tag : BaseList2D) : option GeData :=
  if GetType tag =? Ttexture then GetParameter TEXTURETAG_MATERIAL tag else None.

(** The parameters the tag loops of [HideMaterials] resolve, in the order
    of the calls: the tags of [op], then those of each child in turn. *)
Fixpoint texture_links (op : BaseList2D) : list GeData :=
  omap texture_link (tags op) ++ flat_map texture_links (down op).

(** The materials referenced from [op] and the objects below it. *)
Definition referenced (op : BaseList2D) (mats : list BaseList2D) : list nat :=
  omap (fun data => GetLink_Mbase data mats) (texture_links op).

(** The node after one turn of [HideHierarchy]. *)
Definition turned (hide : bool) (n : BaseList2D) : BaseList2D :=
  fst (HideHierarchy_turn hide false n).

(** The step of [HideMaterials] for one resolved parameter, on the material
    list alone. *)
Definition hide_link (hide : bool) (mats : list BaseList2D) (data : GeData)
  : list BaseList2D :=
  match GetLink_Mbase data mats with
  | Some i => alter (turned hide) i mats
  | None => mats
  end.

(** Every node of [before] is found at its place in [after] with the six
    bits and the tags it had. *)
Definition restored (before after : list BaseList2D) : Prop :=
  forall p n, chain_at p before = Some n ->
    exists n', chain_at p after = Some n' /\ nbits n' = nbits n /\ tags n' = tags n.

(** The materials referenced below [op] are visible, with everything
    below them. *)
Definition referenced_visible (op : BaseList2D) (mats : list BaseList2D) : bool :=
  forallb (fun j : nat => match mats !! j with
                          | Some m => all_visible m
                          | None => true
                          end) (referenced op mats).

(** Every node a traversal of the whole chain [before] visits is found
    deselected in [after]. *)
Definition deselected (before after : list BaseList2D) : Prop :=
  forall p, visits true before p = true ->
    exists n', chain_at p after = Some n' /\ GetBit BIT_ACTIVE n' = false.

(** Every node a traversal of the whole chain [before] visits is found in
    [after] with all six bits at [v] and deselected. *)
Definition toggled (v : bool) (before after : list BaseList2D) : Prop :=
  forall p, visits true before p = true ->
    exists n', chain_at p after = Some n' /\ shows v n' /\ GetBit BIT_ACTIVE n' = false.

(** The materials referenced below [op] are turned in [after] and show
    [v], the others are what they were in [before]. *)
Definition materials_toggled (v : bool) (op : BaseList2D)
    (before after : list BaseList2D) : Prop :=
  forall j : nat,
    if bool_decide (j ∈ referenced op before)
    then exists m, before !! j = Some m /\ after !! j = Some (turned v m) /\
                   shows v (turned v m)
    else after !! j = before !! j.

(** [op] is a container with node data [this]. *)
Definition IsContainer (op : BaseList2D) (this : ContainerObject) : Prop :=
  GetType op = Ocontainer /\ GetNodeData op = Some this.

(** The world [ToggleProtect] has reached when it has recorded its undo. *)
Definition undo_recorded (doc : bool) (op : BaseList2D) (w : World) : World :=
  if doc then add_undos [StartUndo; AddUndo UNDOTYPE_CHANGE_SMALL op; EndUndo] w
  else w.

(** The two transitions of [ToggleProtect] from the world [w] the prompt
    has left: the members are set, [HideNodes] runs, the change is
    signalled. *)
Definition lock_transition (this : ContainerObject) (password : string)
    (op : BaseList2D) (doc : bool) (w : World) : BaseList2D * World :=
  let this := set_protectionHash (HashString password) (set_protected true this) in
  let r := HideNodes (set_nodedata (Some this) op) doc true w in
  (fst r, notify_change (snd r)).

Definition unlock_transition (this : ContainerObject)
    (op : BaseList2D) (doc : bool) (w : World) : BaseList2D * World :=
  let r := HideNodes (set_nodedata (Some (set_protected false this)) op) doc false w in
  (fst r, notify_change (snd r)).

(** The two parts of the persisted record, as [Write] lays them out
    under its headings [VERSION 0] and [VERSION 1000]. *)
Definition version0_record (icon : option BaseBitmap) : list HFChunk :=
  HF_Bool (bool_decide (icon <> None)) ::
  match icon with Some bmp => [HF_Image bmp] | None => [] end.

Definition version1000_record (this : ContainerObject) : list HFChunk :=
  HF_Bool (m_protected this) ::
  if m_protected this then [HF_String (m_protectionHash this)] else [].

Definition is_hash_field (c : HFChunk) : bool :=
  match c with HF_String _ => true | _ => false end.

(** The events a call added to the trace of [w]. *)
Definition new_events (w w' : World) : list Event :=
  drop (length (trace w)) (trace w').

Definition is_notification (e : Event) : bool :=
  match e with
  | EvMessage_MSG_CHANGE | EvSetDirty_DESCRIPTION | EvEventAdd => true
  | _ => false
  end.

Definition is_prompt (e : Event) : bool :=
  match e with EvPasswordDialog _ _ _ => true | _ => false end.

End Vocabulary.

(** ** A sample scene *)

Module Scene.

Definition symbols : Symbols := {|
  Ocontainer := 1030970;
  CONTAINEROBJECT_PROTECTIONHASH := 1030971;
  NRCONTAINER_HIDE_TAGS := 1001;
  NRCONTAINER_HIDE_MATERIALS := 1002;
  NRCONTAINER_GENERATOR_CHECKMARK := 1003;
  NRCONTAINER_INFO_NAME := 1010;
  NRCONTAINER_INFO_VERSION := 1011;
  NRCONTAINER_INFO_URL := 1012;
  NRCONTAINER_INFO_AUTHOR := 1013;
  NRCONTAINER_INFO_AUTHOR_EMAIL := 1014;
  NRCONTAINER_INFO_DESCRIPTION := 1015;
  HashString := fun s => String.append "#" s |}.

Definition Onull : Z := 5140.
Definition Mmaterial : Z := 5703.
Definition Tphong : Z := 5612.

(** A visible, selected node without parameters. *)
Definition plain (k : NodeKind) (t : Z) (tg dn : list BaseList2D) : BaseList2D :=
  mkNode (nbits_all false) BIT_ACTIVE k t ∅ None tg dn.

Definition M0 : BaseList2D := plain KMaterial Mmaterial [] [].
Definition M1 : BaseList2D := plain KMaterial Mmaterial [] [].

Definition texture_tag (l : BaseLink) : BaseList2D :=
  set_data {[ TEXTURETAG_MATERIAL := DA_ALIASLINK l ]} (plain KTag Ttexture [] []).
Definition other_tag : BaseList2D := plain KTag Tphong [] [].

Definition X : BaseList2D := plain KObject Onull [] [].

(** An object whose texture tag holds a dangling link. *)
Definition Y : BaseList2D := plain KObject Onull [texture_tag (Some 7%nat)] [].

(** The parameters of a container: the two flags. *)
Definition flags (hideTags hideMaterials : bool) : gmap Z GeData :=
  SetBool (NRCONTAINER_HIDE_MATERIALS (Symbols := symbols)) hideMaterials
    (SetBool (NRCONTAINER_HIDE_TAGS (Symbols := symbols)) hideTags ∅).

Definition container (this : ContainerObject) (tg dn : list BaseList2D) : BaseList2D :=
  mkNode (nbits_all false) 0 KObject (Ocontainer (Symbols := symbols))
    (flags false true) (Some this) tg dn.

(** A locked container around [X]. *)
Definition B : BaseList2D := container (mkContainerObject None true "#in") [] [X].

(** A null object carrying a protection hash, around [Y]. *)
Definition N : BaseList2D :=
  set_data {[ CONTAINEROBJECT_PROTECTIONHASH (Symbols := symbols) := DA_STRING "#x" ]}
    (plain KObject Onull [] [Y]).

Definition O11 : BaseList2D := plain KObject Onull [] [].
Definition O1 : BaseList2D := plain KObject Onull [texture_tag (Some 0%nat)] [O11].

(** The outer container, unlocked, with the flags [Init] sets. *)
Definition A : BaseList2D :=
  container (mkContainerObject None false EmptyString) [other_tag] [O1; B; N].

(** A container locked with the password [abc], around [X]. *)
Definition locked_box : BaseList2D :=
  container (mkContainerObject None true "#abc") [] [X].

Definition world0 : World := mkWorld [M0; M1] [] [].

Definition answers (pw : string) : bool -> bool -> option string :=
  fun _ _ => Some pw.
Definition cancels : bool -> bool -> option string :=
  fun _ _ => None.

(** [A] locked with the password [abc], then unlocked with it, and an
    attempt to unlock it with [xyz]. *)
Definition A_locked : BaseList2D * World :=
  ToggleProtect (Sym := symbols) (answers "abc") true A world0.
Definition A_unlocked : BaseList2D * World :=
  ToggleProtect (Sym := symbols) (answers "abc") true (fst A_locked) (snd A_locked).
Definition A_refused : BaseList2D * World :=
  ToggleProtect (Sym := symbols) (answers "xyz") true (fst A_locked) (snd A_locked).

End Scene.

(** * The rest of the plugin *)

(** ** Host constants and symbols of the command interface *)

(** [DESCFLAGS_SET_PARAM_SET] and [DESCFLAGS_GET_PARAM_GET] ([1 << 1]) and
    [OBJECT_GENERATOR] ([1 << 2]). *)
Definition DESCFLAGS_SET_PARAM_SET : Z := 2.
Definition DESCFLAGS_GET_PARAM_GET : Z := 2.
Definition OBJECT_GENERATOR : Z := 4.

(** The ids of the description commands and the icon size, from the
    plugin's headers. *)
Class CommandSymbols := {
  NRCONTAINER_PACKUP : Z;
  NRCONTAINER_ICON_LOAD : Z;
  NRCONTAINER_ICON_CLEAR : Z;
  NRCONTAINER_DEV_INFO : Z;
  CONTAINEROBJECT_ICONSIZE : Z }.

(** The strings the icon command shows in a message dialog. *)
Inductive IDS := IDS_INFO_OUTOFMEMORY | IDS_INFO_INVALIDIMAGE.

(** What the host and the utilities answer during a description command:
    the file chosen in the file selector ([None] when it is dismissed),
    whether the call of [BaseBitmap::Alloc] with the given number (counted
    from 0 within the command) yields a bitmap, the image
    [BaseBitmap::Init(flname)] loads ([None] unless [IMAGERESULT_OK]), the
    bitmap [ScaleIt] leaves in a square destination of the given size, and
    the undo items the constructor and the destructor of [AutoUndo] add. *)
Record CommandHost := mkCommandHost {
  FileSelect : option string;
  Alloc : nat -> bool;
  Init_file : string -> option BaseBitmap;
  ScaleIt : BaseBitmap -> Z -> BaseBitmap;
  AutoUndo_enter : bool -> list UndoItem;
  AutoUndo_leave : bool -> list UndoItem }.


(** [GeData::GetBool]. *)
Definition GeData_GetBool (d : GeData) : bool :=
  match d with DA_LONG z => negb (z =? 0) | _ => false end.

Section Interface.
Context {Sym : Symbols} {Cmd : CommandSymbols}.

(** ** [SetDParameter] and [GetDEnabling] *)

(** The case labels shared by the two switches. *)
Definition is_info_id (id : Z) : bool :=
  (id =? NRCONTAINER_INFO_NAME) || (id =? NRCONTAINER_INFO_VERSION)
  || (id =? NRCONTAINER_INFO_URL) || (id =? NRCONTAINER_INFO_AUTHOR)
  || (id =? NRCONTAINER_INFO_AUTHOR_EMAIL) || (id =? NRCONTAINER_INFO_DESCRIPTION).

(** The returned flag and [flags] after the call; [super_SetDParameter] is
    the answer of the base class. *)
Definition SetDParameter (super_SetDParameter : Z -> GeData -> Z -> bool * Z)
    (this : ContainerObject) (id : Z) (data : GeData) (flags : Z) : bool * Z :=
  if is_info_id id then
    if m_protected this then (true, Z.lor flags DESCFLAGS_SET_PARAM_SET)
    else super_SetDParameter id data flags
  else super_SetDParameter id data flags.

Definition GetDEnabling (super_GetDEnabling : Z -> bool)
    (this : ContainerObject) (id : Z) : bool :=
  if is_info_id id then negb (m_protected this)
  else super_GetDEnabling id.

(** ** [GetDParameter] *)

(** The datum read ([None] when the call returns [false]) and [flags]
    after the call; [super_GetDParameter] is the answer of the base
    class. *)
Definition GetDParameter (super_GetDParameter : Z -> Z -> option GeData * Z)
    (id : Z) (flags : Z) : option GeData * Z :=
  if id =? NRCONTAINER_DEV_INFO
  then (Some (DA_STRING EmptyString), Z.lor flags DESCFLAGS_GET_PARAM_GET)
  else super_GetDParameter id flags.

(** ** [CopyTo] *)

(** The returned flag and the members of [nDest] after the call. *)
Definition CopyTo (super_CopyTo : bool) (this dest : ContainerObject)
  : bool * ContainerObject :=
  let result := super_CopyTo in
  if negb result then (result, dest)
  else
    let dest := match m_customIcon dest with
                | Some _ => set_customIcon None dest
                | None => dest
                end in
    let dest := match m_customIcon this with
                | Some bmp => set_customIcon (Some bmp) dest
                | None => dest
                end in
    let dest := set_protected (m_protected this) dest in
    let dest := set_protectionHash (m_protectionHash this) dest in
    (result, dest).

(** ** [OnDescriptionCommand] *)

(** The case [NRCONTAINER_ICON_LOAD] past its guard: the members and the
    message dialogs shown. The bitmap loaded from the file is scaled into
    a destination that is allocated without a check: when that allocation
    yields null, [dest->Init] dereferences it and the call does not
    return, which is the result [None]. *)
Definition icon_load (host : CommandHost) (this : ContainerObject)
  : option (ContainerObject * list IDS) :=
  match FileSelect host with
  | None => Some (this, [])
  | Some flname =>
    let '(this, allocated) :=
      match m_customIcon this with
      | None =>
        (if Alloc host 0%nat then set_customIcon (Some []) this else this, 1%nat)
      | Some _ => (set_customIcon (Some []) this, 0%nat)
      end in
    match m_customIcon this with
    | None => Some (this, [IDS_INFO_OUTOFMEMORY])
    | Some _ =>
      match Init_file host flname with
      | None => Some (set_customIcon None this, [IDS_INFO_INVALIDIMAGE])
      | Some img =>
        if Alloc host allocated
        then Some (set_customIcon (Some (ScaleIt host img CONTAINEROBJECT_ICONSIZE)) this,
                   [])
        else None
      end
    end
  end.

(** The node, the world and the message dialogs after the command [id];
    [None] when the command does not return. *)
Definition OnDescriptionCommand (host : CommandHost)
    (PasswordDialog : bool -> bool -> option string)
    (doc : bool) (id : Z) (op : BaseList2D) (w : World)
  : option (BaseList2D * World * list IDS) :=
  let w := add_undos (AutoUndo_enter host doc) w in
  let done : option (BaseList2D * World * list IDS) :=
    if id =? NRCONTAINER_PACKUP then
      let '(op, w) := ToggleProtect PasswordDialog doc op w in Some (op, w, [])
    else if id =? NRCONTAINER_ICON_LOAD then
      match GetNodeData op with
      | None => Some (op, w, [])
      | Some this =>
        if m_protected this then Some (op, w, [])
        else
          match icon_load host this with
          | Some (this, shown) => Some (set_nodedata (Some this) op, w, shown)
          | None => None
          end
      end
    else if id =? NRCONTAINER_ICON_CLEAR then
      match GetNodeData op with
      | None => Some (op, w, [])
      | Some this =>
        if m_protected this then Some (op, w, [])
        else Some (set_nodedata (Some (set_customIcon None this)) op, w, [])
      end
    else Some (op, w, []) in
  match done with
  | Some (op, w, shown) => Some (op, add_undos (AutoUndo_leave host doc) w, shown)
  | None => None
  end.

(** ** [Message] *)


(** ** [_hook_GetInfo] *)

(** [_orig_GetInfo] is the function the hook replaced. [op->GetParameter]
    on a container goes through [GetDParameter], whose base class reads
    the container of [op]. *)
Definition _hook_GetInfo (_orig_GetInfo : option BaseList2D -> Z)
    (op : option BaseList2D) : Z :=
  match op with
  | Some o =>
    if GetType o =? Ocontainer then
      let data :=
        match fst (GetDParameter (fun id flags => (GetParameter id o, flags))
                     NRCONTAINER_GENERATOR_CHECKMARK 0) with
        | Some d => d
        | None => DA_NIL
        end in
      if GeData_GetBool data then OBJECT_GENERATOR else 0
    else _orig_GetInfo op
  | None => _orig_GetInfo op
  end.

(** ** Further vocabulary *)

(** The nodes a traversal that reaches [n] visits, in the order of the
    visits. *)
Fixpoint reach (n : BaseList2D) : list BaseList2D :=
  n :: (if hideChildren n then flat_map reach (down n) else []).

(** The nodes [HideHierarchy(root, _, _, sameLevel)] visits, in order. *)
Definition reached (sameLevel : bool) (root : list BaseList2D) : list BaseList2D :=
  if sameLevel then flat_map reach root
  else match root with [] => [] | r :: _ => reach r end.

(** The step of [HideMaterials] for one parameter read from a texture
    tag, on the world. *)
Definition HideMaterials_link (hide doc : bool) (data : GeData) (w : World) : World :=
  match GetLink_Mbase data (materials w) with
  | Some i =>
    let '(mat, u) := HideHierarchy (drop i (materials w)) hide doc false in
    add_undos u (set_materials (take i (materials w) ++ mat) w)
  | None => w
  end.

Definition is_bits_undo (u : UndoItem) : bool :=
  match u with AddUndo UNDOTYPE_BITS _ => true | _ => false end.

(** [w'] has the undo log of [w] followed by [UNDOTYPE_BITS] entries only,
    and by nothing when there is no document. *)
Definition bits_recorded (doc : bool) (w w' : World) : Prop :=
  exists rest,
    undos w' = undos w ++ rest /\
    forallb is_bits_undo rest = true /\
    (doc = false -> rest = []).

(** The part of a record [Read] looks for at [level]. *)
Definition record_at (level : Z) (this : ContainerObject) : list HFChunk :=
  version0_record (m_customIcon this)
  ++ (if 1000 <=? level then version1000_record this else []).

(** The ids [Init] writes are pairwise distinct where a later write would
    replace an earlier flag. *)
Definition flag_ids_distinct : Prop :=
  NRCONTAINER_HIDE_TAGS <> NRCONTAINER_HIDE_MATERIALS /\
  NRCONTAINER_HIDE_TAGS <> NRCONTAINER_GENERATOR_CHECKMARK /\
  NRCONTAINER_HIDE_MATERIALS <> NRCONTAINER_GENERATOR_CHECKMARK /\
  is_info_id NRCONTAINER_HIDE_TAGS = false /\
  is_info_id NRCONTAINER_HIDE_MATERIALS = false /\
  is_info_id NRCONTAINER_GENERATOR_CHECKMARK = false.

End Interface.

(** ** Samples for the command interface *)

Module Desk.

Definition commands : CommandSymbols := {|
  NRCONTAINER_PACKUP := 1020;
  NRCONTAINER_ICON_LOAD := 1021;
  NRCONTAINER_ICON_CLEAR := 1022;
  NRCONTAINER_DEV_INFO := 1030;
  CONTAINEROBJECT_ICONSIZE := 64 |}.

(** A host whose file selector yields [file], that can read the file
    [icon.png] only, and whose allocator answers [memory]. *)
Definition host_with (memory : nat -> bool) (file : option string) : CommandHost := {|
  FileSelect := file;
  Alloc := memory;
  Init_file := fun f => if String.eqb f "icon.png" then Some [1; 2; 3] else None;
  ScaleIt := fun img size => size :: img;
  AutoUndo_enter := fun doc => if doc then [StartUndo] else [];
  AutoUndo_leave := fun doc => if doc then [EndUndo] else [] |}.

Definition host (file : option string) : CommandHost := host_with (fun _ => true) file.

(** An unlocked and a locked container with a custom icon. *)
Definition pictured : BaseList2D :=
  Scene.container (mkContainerObject (Some [9]) false EmptyString) [] [Scene.X].
Definition pictured_locked : BaseList2D :=
  Scene.container (mkContainerObject (Some [9]) true "#abc") [] [Scene.X].

(** A container around a locked container whose content uses the
    material [M1]. *)
Definition Z1 : BaseList2D :=
  Scene.plain KObject Scene.Onull [Scene.texture_tag (Some 1%nat)] [].
Definition inner : BaseList2D :=
  Scene.container (mkContainerObject None true "#in") [] [Z1].
Definition outer : BaseList2D :=
  Scene.container (mkContainerObject None false EmptyString) [] [inner].

End Desk.

(** * Properties *)

(** ** Induction on nodes *)

Section NodeInduction.
Variable P : BaseList2D -> Prop.
Hypothesis step : forall nb b k t bc nd tg dn,
  Forall P tg -> Forall P dn -> P (mkNode nb b k t bc nd tg dn).

Fixpoint BaseList2D_ind (n : BaseList2D) : P n :=
  match n with
  | mkNode nb b k t bc nd tg dn =>
    step nb b k t bc nd tg dn
      ((fix all (l : list BaseList2D) : Forall P l :=
          match l with
          | [] => List.Forall_nil P
          | x :: l' => @List.Forall_cons _ P x l' (BaseList2D_ind x) (all l')
          end) tg)
      ((fix all (l : list BaseList2D) : Forall P l :=
          match l with
          | [] => List.Forall_nil P
          | x :: l' => @List.Forall_cons _ P x l' (BaseList2D_ind x) (all l')
          end) dn)
  end.
End NodeInduction.

Section Traversal.
Context {Sym : Symbols}.

(** ** One turn of the traversal *)

Lemma hideChildren_toggle_bits hide n :
  hideChildren (toggle_bits hide n) = hideChildren n.
Proof. destruct n; reflexivity. Qed.

Lemma HideHierarchy_turn_unfold hide doc root :
  HideHierarchy_turn hide doc root =
  let undo := if doc then [AddUndo UNDOTYPE_BITS root] else [] in
  let root' := toggle_bits hide root in
  if hideChildren root then
    (set_down (fst (HideHierarchy_chain hide doc (down root))) root',
     undo ++ snd (HideHierarchy_chain hide doc (down root)))
  else (root', undo).
Proof.
  destruct root as [nb b k t bc nd tg dn].
  cbn [HideHierarchy_turn].
  rewrite hideChildren_toggle_bits.
  destruct (hideChildren _); [|reflexivity].
  cbn [down].
  match goal with |- (let '(d, u) := ?f dn in _) = _ =>
    assert (Hfix : forall l, f l = HideHierarchy_chain hide doc l)
  end.
  { induction l as [|c l IH]; [reflexivity|].
    cbn [HideHierarchy_chain]. rewrite <- IH. reflexivity. }
  rewrite Hfix. destruct (HideHierarchy_chain hide doc dn); reflexivity.
Qed.

Lemma HideHierarchy_turn_doc hide doc n :
  fst (HideHierarchy_turn hide doc n) = turned hide n.
Proof.
  unfold turned. induction n as [nb b k t bc nd tg dn _ IH] using BaseList2D_ind.
  rewrite !HideHierarchy_turn_unfold. cbn zeta.
  destruct (hideChildren _); [|reflexivity].
  cbn [fst down]. f_equal.
  induction IH as [|c l Hc _ IHl]; [reflexivity|].
  cbn [HideHierarchy_chain].
  destruct (HideHierarchy_turn hide doc c), (HideHierarchy_turn hide false c).
  destruct (HideHierarchy_chain hide doc l), (HideHierarchy_chain hide false l).
  cbn [fst] in *. congruence.
Qed.

Lemma HideHierarchy_chain_fst hide doc l :
  fst (HideHierarchy_chain hide doc l) = map (turned hide) l.
Proof.
  induction l as [|c l IH]; [reflexivity|].
  cbn [HideHierarchy_chain map]. rewrite <- IH, <- (HideHierarchy_turn_doc hide doc c).
  destruct (HideHierarchy_turn hide doc c), (HideHierarchy_chain hide doc l).
  reflexivity.
Qed.

Lemma turned_unfold hide n :
  turned hide n =
  if hideChildren n then set_down (map (turned hide) (down n)) (toggle_bits hide n)
  else toggle_bits hide n.
Proof.
  unfold turned at 1. rewrite HideHierarchy_turn_unfold. cbn zeta.
  destruct (hideChildren n); [|reflexivity].
  cbn [fst]. rewrite HideHierarchy_chain_fst. reflexivity.
Qed.

Lemma HideHierarchy_fst_same_level root hide doc :
  fst (HideHierarchy root hide doc true) = map (turned hide) root.
Proof. apply HideHierarchy_chain_fst. Qed.

Lemma HideHierarchy_fst_single root hide doc :
  fst (HideHierarchy root hide doc false) =
  match root with [] => [] | r :: next => turned hide r :: next end.
Proof.
  destruct root as [|r next]; [reflexivity|].
  cbn [HideHierarchy]. rewrite <- (HideHierarchy_turn_doc hide doc r).
  destruct (HideHierarchy_turn hide doc r). reflexivity.
Qed.

(** What a turn leaves alone, and what it sets. *)

Lemma turned_kind hide n : kind (turned hide n) = kind n.
Proof. rewrite turned_unfold. destruct (hideChildren n), n; reflexivity. Qed.
Lemma turned_GetType hide n : GetType (turned hide n) = GetType n.
Proof. rewrite turned_unfold. destruct (hideChildren n), n; reflexivity. Qed.
Lemma turned_GetDataInstance hide n : GetDataInstance (turned hide n) = GetDataInstance n.
Proof. rewrite turned_unfold. destruct (hideChildren n), n; reflexivity. Qed.
Lemma turned_GetNodeData hide n : GetNodeData (turned hide n) = GetNodeData n.
Proof. rewrite turned_unfold. destruct (hideChildren n), n; reflexivity. Qed.
Lemma turned_tags hide n : tags (turned hide n) = tags n.
Proof. rewrite turned_unfold. destruct (hideChildren n), n; reflexivity. Qed.
Lemma turned_nbits hide n : nbits (turned hide n) = nbits_all hide.
Proof. rewrite turned_unfold. destruct (hideChildren n), n, hide; reflexivity. Qed.
Lemma turned_bits hide n : bits (turned hide n) = Z.land (bits n) (Z.lnot BIT_ACTIVE).
Proof. rewrite turned_unfold. destruct (hideChildren n), n; reflexivity. Qed.
Lemma turned_down hide n :
  down (turned hide n) = if hideChildren n then map (turned hide) (down n) else down n.
Proof. rewrite turned_unfold. destruct (hideChildren n), n; reflexivity. Qed.

Lemma turned_hideChildren hide n : hideChildren (turned hide n) = hideChildren n.
Proof.
  unfold hideChildren, IsInstanceOf_Obase, ContainerIsProtected.
  rewrite turned_kind, turned_GetDataInstance, turned_GetType, turned_GetNodeData.
  reflexivity.
Qed.

Lemma turned_shows hide n : shows hide (turned hide n).
Proof. intros b. unfold GetNBit. rewrite turned_nbits. destruct b; reflexivity. Qed.

Lemma turned_deselected hide n : GetBit BIT_ACTIVE (turned hide n) = false.
Proof.
  unfold GetBit. rewrite turned_bits.
  rewrite <- Z.land_assoc, (Z.land_comm (Z.lnot _)), Z.land_lnot_diag, Z.land_0_r.
  reflexivity.
Qed.

(** The node at a position after a turn: visited nodes are turned, the
    others are what they were. *)
Lemma node_at_turned hide p : forall n,
  node_at p (turned hide n) =
  if visits_from p n then turned hide <$> node_at p n else node_at p n.
Proof.
  induction p as [|i p IH]; intros n; [reflexivity|].
  cbn [node_at visits_from]. rewrite turned_down.
  destruct (hideChildren n); cbn [andb]; [|reflexivity].
  rewrite list_lookup_fmap. destruct (down n !! i) as [c|]; cbn; [apply IH|reflexivity].
Qed.

Lemma chain_at_turned hide same p root doc :
  chain_at p (fst (HideHierarchy root hide doc same)) =
  if visits same root p then turned hide <$> chain_at p root else chain_at p root.
Proof.
  destruct p as [|i p]; [reflexivity|]. cbn [chain_at visits].
  destruct same; cbn [orb].
  - rewrite HideHierarchy_fst_same_level, list_lookup_fmap.
    destruct (root !! i) as [n|]; cbn; [apply node_at_turned|reflexivity].
  - rewrite HideHierarchy_fst_single. destruct root as [|r next].
    + destruct i; reflexivity.
    + destruct i as [|i]; cbn; [apply node_at_turned|].
      destruct (next !! i); reflexivity.
Qed.

End Traversal.

Section Boundary.
Context {Sym : Symbols}.

Lemma node_at_app p q : forall n,
  node_at (p ++ q) n = match node_at p n with Some b => node_at q b | None => None end.
Proof.
  induction p as [|i p IH]; intros n; [reflexivity|].
  cbn [app node_at]. destruct (down n !! i); [apply IH|reflexivity].
Qed.

Lemma visits_from_app p q : forall n,
  visits_from (p ++ q) n =
  visits_from p n && match node_at p n with Some b => visits_from q b | None => false end.
Proof.
  induction p as [|i p IH]; intros n; [reflexivity|].
  cbn [app node_at visits_from]. destruct (hideChildren n); [|reflexivity].
  cbn [andb]. destruct (down n !! i); [apply IH|reflexivity].
Qed.

Lemma visits_from_node p : forall n,
  visits_from p n = true -> exists c, node_at p n = Some c.
Proof.
  induction p as [|i p IH]; intros n Hv; [eauto|].
  cbn [visits_from node_at] in *. apply andb_prop in Hv as [_ Hv].
  destruct (down n !! i); [auto|discriminate].
Qed.

Lemma visits_node same root p :
  visits same root p = true -> exists c, chain_at p root = Some c.
Proof.
  destruct p as [|i p]; [discriminate|]. cbn [visits chain_at].
  intros Hv. apply andb_prop in Hv as [_ Hv].
  destruct (root !! i); [by apply visits_from_node|discriminate].
Qed.

(** Nothing strictly below a node that stops the descent is visited. *)
Lemma visits_below_boundary same root p q b :
  chain_at p root = Some b -> hideChildren b = false -> q <> [] ->
  visits same root (p ++ q) = false.
Proof.
  intros Hb Hstop Hq. destruct p as [|i p]; [discriminate|].
  cbn [app visits chain_at] in *. destruct (root !! i) as [n|]; [|by rewrite andb_false_r].
  rewrite visits_from_app, Hb. destruct q as [|j q]; [done|].
  cbn [visits_from]. rewrite Hstop. cbn [andb]. by rewrite !andb_false_r.
Qed.

Lemma chain_at_app p q root :
  p <> [] ->
  chain_at (p ++ q) root = match chain_at p root with Some b => node_at q b | None => None end.
Proof.
  destruct p as [|i p]; [done|]. intros _. cbn [app chain_at].
  destruct (root !! i); [apply node_at_app|reflexivity].
Qed.

(** The traversal of a chain leaves every node strictly below a node that
    stops the descent exactly as it was. *)
Lemma HideHierarchy_below_boundary root hide doc same p q b x :
  chain_at p root = Some b -> hideChildren b = false ->
  q <> [] -> node_at q b = Some x ->
  chain_at (p ++ q) (fst (HideHierarchy root hide doc same)) = Some x.
Proof.
  intros Hb Hstop Hq Hx. rewrite chain_at_turned.
  rewrite (visits_below_boundary same root p q b Hb Hstop Hq).
  rewrite chain_at_app by (intros ->; discriminate). by rewrite Hb.
Qed.

Lemma hideChildren_locked_container b :
  kind b = KObject -> fst (ContainerIsProtected (Some b) None) = true ->
  hideChildren b = false.
Proof.
  intros Hk Hp. unfold hideChildren, IsInstanceOf_Obase. rewrite Hk, Hp.
  by destruct (negb _).
Qed.

Lemma hideChildren_hash_object b :
  kind b = KObject ->
  IsEmpty (GetString CONTAINEROBJECT_PROTECTIONHASH (GetDataInstance b)) = false ->
  hideChildren b = false.
Proof.
  intros Hk He. unfold hideChildren, IsInstanceOf_Obase. by rewrite Hk, He.
Qed.

Lemma HideNodes_down op doc hide w :
  down (fst (HideNodes op doc hide w)) = fst (HideHierarchy (down op) hide doc true).
Proof.
  unfold HideNodes. destruct hide.
  - destruct (HideHierarchy (down op) true doc true) as [d u]. cbn [fst].
    destruct (GetBool NRCONTAINER_HIDE_TAGS _).
    + destruct (HideHierarchy (tags (set_down d op)) true doc true). reflexivity.
    + reflexivity.
  - destruct (HideHierarchy (down op) false doc true) as [d u]. cbn [fst].
    destruct (HideHierarchy (tags (set_down d op)) false doc true). reflexivity.
Qed.

End Boundary.

Section Materials.
Context {Sym : Symbols}.

Lemma GetLink_Mbase_lookup data mats i :
  GetLink_Mbase data mats = Some i ->
  exists m, mats !! i = Some m /\ kind m = KMaterial.
Proof.
  unfold GetLink_Mbase. destruct data as [| |?|[j|]]; try discriminate.
  destruct (mats !! j) as [m|] eqn:Hm; [|discriminate].
  destruct (kind m) eqn:Hk; try discriminate. intros [= <-]. eauto.
Qed.

Lemma HideMaterials_tag_materials hide doc tag w :
  materials (HideMaterials_tag hide doc tag w) =
  match texture_link tag with
  | Some data => hide_link hide (materials w) data
  | None => materials w
  end.
Proof.
  unfold HideMaterials_tag, texture_link, hide_link.
  destruct (GetType tag =? Ttexture); [|reflexivity].
  destruct (GetParameter _ _) as [data|]; [|reflexivity].
  destruct (GetLink_Mbase data (materials w)) as [i|] eqn:Hl; [|reflexivity].
  apply GetLink_Mbase_lookup in Hl as (m & Hm & _).
  pose proof (HideHierarchy_fst_single (drop i (materials w)) hide doc) as Hs.
  destruct (HideHierarchy _ hide doc false) as [mat u]. cbn [fst] in Hs. subst mat.
  cbn [add_undos set_materials materials].
  rewrite (drop_S _ _ _ Hm).
  apply list_eq. intros j. rewrite list_lookup_alter.
  destruct (decide (i = j)) as [<-|Hne].
  - rewrite lookup_app_r by (rewrite length_take; lia).
    rewrite length_take, Hm.
    replace (i - i `min` length (materials w))%nat with 0%nat; [reflexivity|].
    apply lookup_lt_Some in Hm. lia.
  - rewrite <- (take_drop_middle _ _ _ Hm) at 3.
    apply lookup_lt_Some in Hm.
    destruct (decide (j < i)%nat).
    + rewrite !lookup_app_l by (rewrite length_take; lia). reflexivity.
    + rewrite !lookup_app_r by (rewrite length_take; lia).
      rewrite length_take.
      destruct (j - i `min` length (materials w))%nat eqn:Hd; [lia|reflexivity].
Qed.

Lemma HideMaterials_tag_trace hide doc tag w :
  trace (HideMaterials_tag hide doc tag w) = trace w.
Proof.
  unfold HideMaterials_tag.
  destruct (GetType tag =? Ttexture); [|reflexivity].
  destruct (GetParameter _ _) as [data|]; [|reflexivity].
  destruct (GetLink_Mbase _ _); [|reflexivity].
  destruct (HideHierarchy _ hide doc false). reflexivity.
Qed.

Lemma HideMaterials_unfold op hide doc w :
  HideMaterials op hide doc w =
  fold_left (fun w child => HideMaterials child hide doc w) (down op)
    (fold_left (fun w tag => HideMaterials_tag hide doc tag w) (tags op) w).
Proof.
  destruct op as [nb b k t bc nd tg dn]. cbn [HideMaterials tags down].
  generalize (fold_left (fun w tag => HideMaterials_tag hide doc tag w) tg w).
  induction dn as [|c dn IH]; intros w'; [reflexivity|]. cbn [fold_left]. apply IH.
Qed.

Lemma texture_links_unfold op :
  texture_links op = omap texture_link (tags op) ++ flat_map texture_links (down op).
Proof. destruct op; reflexivity. Qed.

Lemma tag_loop_materials hide doc tg : forall w,
  materials (fold_left (fun w tag => HideMaterials_tag hide doc tag w) tg w) =
  fold_left (hide_link hide) (omap texture_link tg) (materials w).
Proof.
  induction tg as [|tag tg IH]; intros w; [reflexivity|].
  cbn [fold_left]. rewrite IH, HideMaterials_tag_materials.
  change (omap texture_link (tag :: tg))
    with (match texture_link tag with
          | Some d => d :: omap texture_link tg
          | None => omap texture_link tg end).
  destruct (texture_link tag); reflexivity.
Qed.

Lemma tag_loop_trace hide doc tg : forall w,
  trace (fold_left (fun w tag => HideMaterials_tag hide doc tag w) tg w) = trace w.
Proof.
  induction tg as [|tag tg IH]; intros w; [reflexivity|].
  cbn [fold_left]. rewrite IH. apply HideMaterials_tag_trace.
Qed.

(** [HideMaterials] on the material list: one step per resolved parameter
    of the texture tags of [op] and of all objects below it. *)
Lemma HideMaterials_materials op hide doc : forall w,
  materials (HideMaterials op hide doc w) =
  fold_left (hide_link hide) (texture_links op) (materials w).
Proof.
  induction op as [nb b k t bc nd tg dn _ IH] using BaseList2D_ind. intros w.
  rewrite HideMaterials_unfold, texture_links_unfold. cbn [tags down].
  rewrite fold_left_app, <- (tag_loop_materials hide doc).
  generalize (fold_left (fun w tag => HideMaterials_tag hide doc tag w) tg w).
  induction IH as [|c dn Hc _ IHdn]; intros w'; [reflexivity|].
  cbn [fold_left flat_map]. rewrite fold_left_app, IHdn, Hc. reflexivity.
Qed.

Lemma HideMaterials_trace op hide doc : forall w,
  trace (HideMaterials op hide doc w) = trace w.
Proof.
  induction op as [nb b k t bc nd tg dn _ IH] using BaseList2D_ind. intros w.
  rewrite HideMaterials_unfold. cbn [tags down].
  rewrite <- (tag_loop_trace hide doc tg w).
  generalize (fold_left (fun w tag => HideMaterials_tag hide doc tag w) tg w).
  induction IH as [|c dn Hc _ IHdn]; intros w'; [reflexivity|].
  cbn [fold_left]. rewrite IHdn, Hc. reflexivity.
Qed.

End Materials.

Section Resolution.
Context {Sym : Symbols}.

Lemma toggle_bits_eq h n :
  toggle_bits h n =
  mkNode (nbits_all h) (Z.land (bits n) (Z.lnot BIT_ACTIVE)) (kind n) (GetType n)
    (GetDataInstance n) (GetNodeData n) (tags n) (down n).
Proof. destruct n, h; reflexivity. Qed.

Lemma toggle_bits_twice h' h n d :
  set_down d (toggle_bits h' (toggle_bits h n)) = set_down d (toggle_bits h' n).
Proof.
  rewrite !toggle_bits_eq. unfold set_down.
  cbn [nbits bits kind GetType GetDataInstance GetNodeData tags down].
  f_equal. rewrite <- Z.land_assoc, Z.land_diag. reflexivity.
Qed.

Lemma toggle_bits_set_down h n d :
  toggle_bits h (set_down d n) = set_down d (toggle_bits h n).
Proof. destruct n; reflexivity. Qed.

Lemma set_down_set_down d d' n : set_down d (set_down d' n) = set_down d n.
Proof. destruct n; reflexivity. Qed.

Lemma set_down_self n : set_down (down n) n = n.
Proof. destruct n; reflexivity. Qed.

(** A second turn overrides the first. *)
Lemma turned_turned h' h n : turned h' (turned h n) = turned h' n.
Proof.
  induction n as [nb b k t bc nd tg dn _ IH] using BaseList2D_ind.
  rewrite (turned_unfold h' (turned h _)), turned_hideChildren, turned_down.
  rewrite (turned_unfold h'), (turned_unfold h).
  destruct (hideChildren _) eqn:Hc.
  - rewrite toggle_bits_set_down, toggle_bits_twice, set_down_set_down. f_equal.
    cbn [down]. rewrite <- list_fmap_compose. apply Forall_fmap_ext_1.
    exact IH.
  - rewrite <- (set_down_self (toggle_bits h' (toggle_bits h _))).
    rewrite <- (set_down_self (toggle_bits h' (mkNode nb b k t bc nd tg dn))).
    rewrite toggle_bits_twice. reflexivity.
Qed.

Lemma texture_link_turned h tag : texture_link (turned h tag) = texture_link tag.
Proof.
  unfold texture_link, GetParameter.
  by rewrite turned_GetType, turned_GetDataInstance.
Qed.

Lemma texture_links_turned h n : texture_links (turned h n) = texture_links n.
Proof.
  induction n as [nb b k t bc nd tg dn _ IH] using BaseList2D_ind.
  rewrite !texture_links_unfold, turned_tags, turned_down. f_equal.
  destruct (hideChildren _); [|reflexivity]. cbn [down].
  induction IH as [|c l Hc _ IHl]; [reflexivity|].
  cbn [map flat_map]. by rewrite Hc, IHl.
Qed.

Lemma texture_links_chain h l :
  flat_map texture_links (map (turned h) l) = flat_map texture_links l.
Proof.
  induction l as [|c l IH]; [reflexivity|].
  cbn [map flat_map]. by rewrite texture_links_turned, IH.
Qed.

Lemma texture_link_chain h l :
  omap texture_link (map (turned h) l) = omap texture_link l.
Proof.
  induction l as [|c l IH]; [reflexivity|].
  change (omap texture_link (map (turned h) (c :: l)))
    with (match texture_link (turned h c) with
          | Some d => d :: omap texture_link (map (turned h) l)
          | None => omap texture_link (map (turned h) l) end).
  rewrite texture_link_turned, IH. reflexivity.
Qed.

(** Turning a material does not change which links resolve. *)
Lemma GetLink_Mbase_alter h i data mats :
  GetLink_Mbase data (alter (turned h) i mats) = GetLink_Mbase data mats.
Proof.
  unfold GetLink_Mbase. destruct data as [| |?|[j|]]; try reflexivity.
  rewrite list_lookup_alter. destruct (decide (i = j)) as [->|]; [|reflexivity].
  destruct (mats !! j) as [m|]; [|reflexivity]. cbn. by rewrite turned_kind.
Qed.

Lemma fold_hide_link h links : forall mats,
  fold_left (hide_link h) links mats =
  fold_left (fun m i => alter (turned h) i m)
    (omap (fun data => GetLink_Mbase data mats) links) mats.
Proof.
  induction links as [|d links IH]; intros mats; [reflexivity|].
  cbn [fold_left].
  change (omap (fun data => GetLink_Mbase data mats) (d :: links))
    with (match GetLink_Mbase d mats with
          | Some i => i :: omap (fun data => GetLink_Mbase data mats) links
          | None => omap (fun data => GetLink_Mbase data mats) links end).
  rewrite IH. unfold hide_link.
  destruct (GetLink_Mbase d mats) as [i|]; [|reflexivity].
  cbn [fold_left]. f_equal. apply list_omap_ext.
  clear IH. induction links as [|d' links IH]; constructor;
    [apply GetLink_Mbase_alter|exact IH].
Qed.

Lemma lookup_fold_alter h (l : list nat) : forall (mats : list BaseList2D) (j : nat),
  fold_left (fun m i => alter (turned h) i m) l mats !! j =
  if decide (j ∈ l) then turned h <$> mats !! j else mats !! j.
Proof.
  induction l as [|i l IH]; intros mats j.
  - cbn. destruct (decide _) as [Hin|]; [|reflexivity]. by apply elem_of_nil in Hin.
  - cbn [fold_left]. rewrite IH, list_lookup_alter.
    destruct (decide (j ∈ l)) as [Hl|Hl], (decide (i = j)) as [->|Hij].
    + rewrite decide_True by (by left).
      destruct (mats !! j); cbn; [by rewrite turned_turned|reflexivity].
    + rewrite decide_True by (by right). reflexivity.
    + rewrite decide_True by (by left). reflexivity.
    + rewrite decide_False; [reflexivity|].
      intros [->|?]%elem_of_cons; contradiction.
Qed.

(** [HideMaterials] turns exactly the materials referenced below [op]. *)
Lemma HideMaterials_lookup op hide doc w (j : nat) :
  materials (HideMaterials op hide doc w) !! j =
  if decide (j ∈ referenced op (materials w))
  then turned hide <$> materials w !! j else materials w !! j.
Proof.
  rewrite HideMaterials_materials, fold_hide_link. apply lookup_fold_alter.
Qed.

End Resolution.

Section Orchestration.
Context {Sym : Symbols}.

Ltac name_hierarchy :=
  repeat match goal with
  | |- context [HideHierarchy ?r ?h ?d true] =>
    let E := fresh "E" in
    pose proof (HideHierarchy_fst_same_level r h d) as E;
    destruct (HideHierarchy r h d true) as [? ?]; cbn [fst] in E; subst
  end.

(** The node [HideNodes] returns. *)
Lemma HideNodes_fst op doc hide w :
  fst (HideNodes op doc hide w) =
  let op1 := set_down (map (turned hide) (down op)) op in
  if negb hide || GetBool NRCONTAINER_HIDE_TAGS (GetDataInstance op)
  then set_tags (map (turned hide) (tags op)) op1 else op1.
Proof.
  unfold HideNodes. destruct hide; cbn [negb orb]; name_hierarchy.
  - destruct (GetBool NRCONTAINER_HIDE_TAGS _); name_hierarchy; destruct op; reflexivity.
  - destruct op; reflexivity.
Qed.

Lemma HideNodes_tags op doc hide w :
  tags (fst (HideNodes op doc hide w)) =
  if negb hide || GetBool NRCONTAINER_HIDE_TAGS (GetDataInstance op)
  then map (turned hide) (tags op) else tags op.
Proof.
  rewrite HideNodes_fst. cbn zeta.
  destruct (negb hide || _), op; reflexivity.
Qed.

Lemma HideNodes_GetNodeData op doc hide w :
  GetNodeData (fst (HideNodes op doc hide w)) = GetNodeData op.
Proof.
  rewrite HideNodes_fst. cbn zeta. destruct (negb hide || _), op; reflexivity.
Qed.

Lemma HideNodes_GetDataInstance op doc hide w :
  GetDataInstance (fst (HideNodes op doc hide w)) = GetDataInstance op.
Proof.
  rewrite HideNodes_fst. cbn zeta. destruct (negb hide || _), op; reflexivity.
Qed.

Lemma HideNodes_texture_links op doc hide w :
  texture_links (fst (HideNodes op doc hide w)) = texture_links op.
Proof.
  rewrite !texture_links_unfold, HideNodes_tags, HideNodes_down.
  rewrite HideHierarchy_fst_same_level, texture_links_chain.
  destruct (negb hide || _); [|reflexivity]. by rewrite texture_link_chain.
Qed.

(** The material list [HideNodes] leaves behind. *)
Lemma HideNodes_materials op doc hide w :
  materials (snd (HideNodes op doc hide w)) =
  if negb hide || GetBool NRCONTAINER_HIDE_MATERIALS (GetDataInstance op)
  then materials (HideMaterials (fst (HideNodes op doc hide w)) hide doc w)
  else materials w.
Proof.
  rewrite !HideMaterials_materials.
  unfold HideNodes. destruct hide; cbn [negb orb]; name_hierarchy.
  - destruct (GetBool NRCONTAINER_HIDE_TAGS _); name_hierarchy; cbn [fst snd];
      (destruct (GetBool NRCONTAINER_HIDE_MATERIALS _);
       [rewrite HideMaterials_materials|]; reflexivity).
  - cbn [fst snd]. rewrite HideMaterials_materials. reflexivity.
Qed.

Lemma HideNodes_lookup op doc hide w (j : nat) :
  materials (snd (HideNodes op doc hide w)) !! j =
  if (negb hide || GetBool NRCONTAINER_HIDE_MATERIALS (GetDataInstance op))
     && bool_decide (j ∈ referenced op (materials w))
  then turned hide <$> materials w !! j else materials w !! j.
Proof.
  rewrite HideNodes_materials.
  destruct (negb hide || _); cbn [andb]; [|reflexivity].
  rewrite HideMaterials_lookup. unfold referenced.
  rewrite HideNodes_texture_links.
  destruct (decide _) as [Hin|Hin].
  - by rewrite bool_decide_eq_true_2.
  - by rewrite bool_decide_eq_false_2.
Qed.

Lemma HideNodes_trace op doc hide w :
  trace (snd (HideNodes op doc hide w)) = trace w.
Proof.
  unfold HideNodes. destruct hide; name_hierarchy.
  - destruct (GetBool NRCONTAINER_HIDE_TAGS _); name_hierarchy;
      (destruct (GetBool NRCONTAINER_HIDE_MATERIALS _); cbn [snd];
       [rewrite HideMaterials_trace|]; reflexivity).
  - cbn [snd]. rewrite HideMaterials_trace. reflexivity.
Qed.

End Orchestration.

(** * The claims *)

Section Claims.
Context {Sym : Symbols}.

(** C8. Every node [HideHierarchy] visits ends with all six visibility bits
    equal to [hide] (set together when hiding, cleared together when
    revealing) and with [BIT_ACTIVE] cleared, whatever [hide] is; a node it
    does not visit is left exactly as it was, so no node is toggled in
    part. *)
Theorem HideHierarchy_toggles_six_bits_together root hide doc sameLevel p :
  (visits sameLevel root p = true ->
   exists n', chain_at p (fst (HideHierarchy root hide doc sameLevel)) = Some n' /\
     (forall b : NBIT, GetNBit b n' = hide) /\ GetBit BIT_ACTIVE n' = false) /\
  (visits sameLevel root p = false ->
   chain_at p (fst (HideHierarchy root hide doc sameLevel)) = chain_at p root).
Proof.
  rewrite chain_at_turned. split; intros Hv; rewrite Hv; [|reflexivity].
  destruct (visits_node _ _ _ Hv) as [n ->]. exists (turned hide n).
  split; [reflexivity|]. split; [apply turned_shows|apply turned_deselected].
Qed.

(** C2. When an outer container [A] contains a locked container [B] that
    contains an object [X], [HideNodes(A, hide = true)] leaves [X] at its
    place exactly as it was, its visibility bits included: the traversal
    does not descend into the children of a locked container. *)
Theorem HideNodes_keeps_locked_container_content A doc w pB B pX X :
  chain_at pB (down A) = Some B ->
  kind B = KObject ->
  fst (ContainerIsProtected (Some B) None) = true ->
  pX <> [] ->
  node_at pX B = Some X ->
  chain_at (pB ++ pX) (down (fst (HideNodes A doc true w))) = Some X.
Proof.
  intros HB Hk Hp HpX HX. rewrite HideNodes_down.
  eapply HideHierarchy_below_boundary; eauto using hideChildren_locked_container.
Qed.

(** C10. The descent is also skipped at any object whose parameter
    container carries a non-empty [CONTAINEROBJECT_PROTECTIONHASH] string,
    container or not: every node below such an object is left exactly as
    it was by a [HideNodes] call on an ancestor, hiding or revealing. *)
Theorem HideNodes_keeps_hash_object_content A doc hide w pB B pX X :
  chain_at pB (down A) = Some B ->
  kind B = KObject ->
  IsEmpty (GetString CONTAINEROBJECT_PROTECTIONHASH (GetDataInstance B)) = false ->
  pX <> [] ->
  node_at pX B = Some X ->
  chain_at (pB ++ pX) (down (fst (HideNodes A doc hide w))) = Some X.
Proof.
  intros HB Hk Hh HpX HX. rewrite HideNodes_down.
  eapply HideHierarchy_below_boundary; eauto using hideChildren_hash_object.
Qed.

Lemma toggled_fmap v chain : toggled v chain (map (turned v) chain).
Proof.
  intros p Hv.
  pose proof (chain_at_turned v true p chain false) as E.
  rewrite HideHierarchy_fst_same_level, Hv in E.
  destruct (visits_node _ _ _ Hv) as [n Hn]. rewrite Hn in E.
  exists (turned v n). eauto using turned_shows, turned_deselected.
Qed.

Lemma referenced_lookup op mats (j : nat) :
  j ∈ referenced op mats -> exists m, mats !! j = Some m.
Proof.
  unfold referenced. intros (d & _ & Hd)%list_elem_of_omap.
  apply GetLink_Mbase_lookup in Hd as (m & Hm & _). eauto.
Qed.

Lemma HideNodes_materials_toggled op doc hide w :
  negb hide || GetBool NRCONTAINER_HIDE_MATERIALS (GetDataInstance op) = true ->
  materials_toggled hide op (materials w) (materials (snd (HideNodes op doc hide w))).
Proof.
  intros Hflag j. rewrite HideNodes_lookup, Hflag. cbn [andb].
  destruct (bool_decide _) eqn:Hin; [|reflexivity].
  apply bool_decide_eq_true_1, referenced_lookup in Hin as [m Hm].
  exists m. rewrite Hm. auto using turned_shows.
Qed.

(** C6. [HideNodes] with [hide = true] always runs the traversal over the
    children of the container and hides what it visits, does the same for
    the container's tags exactly when [NRCONTAINER_HIDE_TAGS] is set
    (otherwise the tags stay as they are), and hides the referenced
    materials exactly when [NRCONTAINER_HIDE_MATERIALS] is set (otherwise
    the material list stays as it is). With [hide = false] it reveals
    children, tags and referenced materials whatever the two flags are. *)
Theorem HideNodes_hides_by_flags_reveals_all op doc w :
  let bc := GetDataInstance op in
  let hidden := HideNodes op doc true w in
  let revealed := HideNodes op doc false w in
  (down (fst hidden) = fst (HideHierarchy (down op) true doc true) /\
   toggled true (down op) (down (fst hidden))) /\
  (if GetBool NRCONTAINER_HIDE_TAGS bc
   then tags (fst hidden) = fst (HideHierarchy (tags op) true doc true) /\
        toggled true (tags op) (tags (fst hidden))
   else tags (fst hidden) = tags op) /\
  (if GetBool NRCONTAINER_HIDE_MATERIALS bc
   then materials_toggled true op (materials w) (materials (snd hidden))
   else materials (snd hidden) = materials w) /\
  (down (fst revealed) = fst (HideHierarchy (down op) false doc true) /\
   toggled false (down op) (down (fst revealed))) /\
  (tags (fst revealed) = fst (HideHierarchy (tags op) false doc true) /\
   toggled false (tags op) (tags (fst revealed))) /\
  materials_toggled false op (materials w) (materials (snd revealed)).
Proof.
  cbn zeta. rewrite !HideNodes_down, !HideNodes_tags, !HideHierarchy_fst_same_level.
  cbn [negb orb].
  repeat split; try apply toggled_fmap.
  - destruct (GetBool NRCONTAINER_HIDE_TAGS _); [split; [reflexivity|apply toggled_fmap]|reflexivity].
  - destruct (GetBool NRCONTAINER_HIDE_MATERIALS _) eqn:Hm.
    + apply HideNodes_materials_toggled. exact Hm.
    + rewrite HideNodes_materials, Hm. reflexivity.
  - by apply HideNodes_materials_toggled.
Qed.

(** ** The lock state machine *)

Lemma ToggleProtect_unlocked dialog doc op w this :
  GetNodeData op = Some this -> m_protected this = false ->
  ToggleProtect dialog doc op w =
  let w := undo_recorded doc op w in
  let w := log_event (EvPasswordDialog false true (dialog false true)) w in
  match dialog false true with
  | None => (op, w)
  | Some password => lock_transition this password op doc w
  end.
Proof.
  intros Hd Hp. unfold ToggleProtect, lock_transition, undo_recorded.
  rewrite Hd, Hp. cbn [negb]. destruct (dialog false true); [|reflexivity].
  destruct (HideNodes _ doc true _). reflexivity.
Qed.

Lemma ToggleProtect_locked dialog doc op w this :
  GetNodeData op = Some this -> m_protected this = true ->
  ToggleProtect dialog doc op w =
  let w := undo_recorded doc op w in
  if String.eqb (m_protectionHash this) (HashString EmptyString)
  then unlock_transition this op doc w
  else
    let w := log_event (EvPasswordDialog true true (dialog true true)) w in
    match dialog true true with
    | None => (op, notify_change w)
    | Some password =>
      if String.eqb (m_protectionHash this) (HashString password)
      then unlock_transition this op doc w
      else (op, notify_change (log_event EvMessageDialog_PASSWORD_INVALID w))
    end.
Proof.
  intros Hd Hp. unfold ToggleProtect, unlock_transition, undo_recorded.
  rewrite Hd, Hp. cbn [negb].
  destruct (String.eqb _ (HashString EmptyString)).
  - destruct (HideNodes _ doc false _). reflexivity.
  - destruct (dialog true true); [|reflexivity].
    destruct (String.eqb _ _); [|reflexivity].
    destruct (HideNodes _ doc false _). reflexivity.
Qed.

Lemma new_events_app w w' evs :
  trace w' = trace w ++ evs -> new_events w w' = evs.
Proof. unfold new_events. intros ->. apply drop_app_length. Qed.

Lemma trace_undo_recorded doc op w : trace (undo_recorded doc op w) = trace w.
Proof. by destruct doc. Qed.

Lemma materials_undo_recorded doc op w :
  materials (undo_recorded doc op w) = materials w.
Proof. by destruct doc. Qed.

Lemma trace_notify_change w :
  trace (notify_change w) =
  trace w ++ [EvMessage_MSG_CHANGE; EvSetDirty_DESCRIPTION; EvEventAdd].
Proof. cbn. by rewrite <- !app_assoc. Qed.

Lemma trace_unlock_transition this op doc w :
  trace (snd (unlock_transition this op doc w)) =
  trace w ++ [EvMessage_MSG_CHANGE; EvSetDirty_DESCRIPTION; EvEventAdd].
Proof.
  unfold unlock_transition. cbn [snd]. by rewrite trace_notify_change, HideNodes_trace.
Qed.

Lemma trace_lock_transition this pw op doc w :
  trace (snd (lock_transition this pw op doc w)) =
  trace w ++ [EvMessage_MSG_CHANGE; EvSetDirty_DESCRIPTION; EvEventAdd].
Proof.
  unfold lock_transition. cbn [snd]. by rewrite trace_notify_change, HideNodes_trace.
Qed.

Lemma GetNodeData_unlock_transition this op doc w :
  GetNodeData (fst (unlock_transition this op doc w)) = Some (set_protected false this).
Proof.
  unfold unlock_transition. cbn [fst]. rewrite HideNodes_GetNodeData. by destruct op.
Qed.

Lemma GetNodeData_lock_transition this pw op doc w :
  GetNodeData (fst (lock_transition this pw op doc w)) =
  Some (set_protectionHash (HashString pw) (set_protected true this)).
Proof.
  unfold lock_transition. cbn [fst]. rewrite HideNodes_GetNodeData. by destruct op.
Qed.

Lemma ToggleProtect_match dialog doc op w this password :
  GetNodeData op = Some this ->
  m_protected this = true ->
  dialog true true = Some password ->
  HashString password = m_protectionHash this ->
  exists w1,
    materials w1 = materials w /\
    ToggleProtect dialog doc op w = unlock_transition this op doc w1.
Proof.
  intros Hd Hp Hans Hhash.
  rewrite (ToggleProtect_locked dialog doc op w this Hd Hp). cbn zeta.
  rewrite Hans, <- Hhash, String.eqb_refl.
  destruct (String.eqb _ _).
  - exists (undo_recorded doc op w). by rewrite materials_undo_recorded.
  - eexists (log_event _ (undo_recorded doc op w)).
    cbn [log_event materials]. by rewrite materials_undo_recorded.
Qed.

(** C3, as the code has it. For a locked container and a password whose
    hash is the stored one, [ToggleProtect] clears [m_protected], leaves
    [m_protectionHash] as it is, runs [HideNodes(op, doc, false)] and
    signals the change. *)
Theorem ToggleProtect_unlocks_on_match dialog doc op w this password :
  GetNodeData op = Some this ->
  m_protected this = true ->
  dialog true true = Some password ->
  HashString password = m_protectionHash this ->
  exists w1,
    materials w1 = materials w /\
    ToggleProtect dialog doc op w =
      (fst (HideNodes (set_nodedata (Some (set_protected false this)) op) doc false w1),
       notify_change
         (snd (HideNodes (set_nodedata (Some (set_protected false this)) op) doc false w1))) /\
    GetNodeData (fst (ToggleProtect dialog doc op w)) =
      Some (mkContainerObject (m_customIcon this) false (m_protectionHash this)).
Proof.
  intros Hd Hp Hans Hhash.
  destruct (ToggleProtect_match dialog doc op w this password Hd Hp Hans Hhash)
    as (w1 & Hm & ->).
  exists w1. rewrite GetNodeData_unlock_transition. auto.
Qed.

(** C4, as the code has it. When the password prompt of [ToggleProtect] is
    dismissed, in either direction, the container with its lock fields and
    every node below it are what they were, and so is the material list;
    when the container was unlocked, no change is signalled either. *)
Theorem ToggleProtect_cancelled dialog doc op w this confirm allowCancel :
  GetNodeData op = Some this ->
  In (EvPasswordDialog confirm allowCancel None)
     (new_events w (snd (ToggleProtect dialog doc op w))) ->
  fst (ToggleProtect dialog doc op w) = op /\
  materials (snd (ToggleProtect dialog doc op w)) = materials w /\
  (m_protected this = false ->
   forallb (fun e => negb (is_notification e))
     (new_events w (snd (ToggleProtect dialog doc op w))) = true).
Proof.
  intros Hd. destruct (m_protected this) eqn:Hp.
  - rewrite (ToggleProtect_locked dialog doc op w this Hd Hp). cbn zeta.
    destruct (String.eqb _ (HashString EmptyString)).
    + rewrite (new_events_app _ _ [EvMessage_MSG_CHANGE; EvSetDirty_DESCRIPTION; EvEventAdd])
        by (by rewrite trace_unlock_transition, trace_undo_recorded).
      cbn. intuition discriminate.
    + destruct (dialog true true) as [pw|].
      * destruct (String.eqb _ (HashString pw)).
        -- rewrite (new_events_app _ _
             [EvPasswordDialog true true (Some pw);
              EvMessage_MSG_CHANGE; EvSetDirty_DESCRIPTION; EvEventAdd]).
           ++ cbn. intuition discriminate.
           ++ rewrite trace_unlock_transition. cbn [log_event trace].
              rewrite trace_undo_recorded, <- app_assoc. reflexivity.
        -- rewrite (new_events_app _ _
             [EvPasswordDialog true true (Some pw); EvMessageDialog_PASSWORD_INVALID;
              EvMessage_MSG_CHANGE; EvSetDirty_DESCRIPTION; EvEventAdd]).
           ++ cbn. intuition discriminate.
           ++ cbn [snd]. rewrite trace_notify_change. cbn [log_event trace].
              rewrite trace_undo_recorded, <- !app_assoc. reflexivity.
      * intros _. cbn [fst snd notify_change log_event materials].
        rewrite materials_undo_recorded. repeat split. discriminate.
  - rewrite (ToggleProtect_unlocked dialog doc op w this Hd Hp). cbn zeta.
    destruct (dialog false true) as [pw|].
    + rewrite (new_events_app _ _
        [EvPasswordDialog false true (Some pw);
         EvMessage_MSG_CHANGE; EvSetDirty_DESCRIPTION; EvEventAdd]).
      * cbn. intuition discriminate.
      * rewrite trace_lock_transition. cbn [log_event trace].
        rewrite trace_undo_recorded, <- app_assoc. reflexivity.
    + intros _. cbn [fst snd log_event materials].
      rewrite materials_undo_recorded. repeat split.
      rewrite (new_events_app _ _ [EvPasswordDialog false true None]); [reflexivity|].
      cbn [log_event trace]. by rewrite trace_undo_recorded.
Qed.

(** C5. For a locked container: when a password was entered and its hash
    is not the stored one, [ToggleProtect] returns the container and all
    its nodes as they were, still locked, and the material list as it was;
    and when the stored hash is the hash of the empty string,
    [ToggleProtect] unlocks, shows no prompt and does not depend on what
    the prompt would answer. *)
Theorem ToggleProtect_authentication dialog doc op w this :
  GetNodeData op = Some this ->
  m_protected this = true ->
  (forall password,
     In (EvPasswordDialog true true (Some password))
        (new_events w (snd (ToggleProtect dialog doc op w))) ->
     HashString password <> m_protectionHash this ->
     fst (ToggleProtect dialog doc op w) = op /\
     materials (snd (ToggleProtect dialog doc op w)) = materials w /\
     m_protected <$> GetNodeData (fst (ToggleProtect dialog doc op w)) = Some true) /\
  (m_protectionHash this = HashString EmptyString ->
     m_protected <$> GetNodeData (fst (ToggleProtect dialog doc op w)) = Some false /\
     ToggleProtect dialog doc op w =
       unlock_transition this op doc (undo_recorded doc op w) /\
     forallb (fun e => negb (is_prompt e))
       (new_events w (snd (ToggleProtect dialog doc op w))) = true /\
     forall dialog', ToggleProtect dialog' doc op w = ToggleProtect dialog doc op w).
Proof.
  intros Hd Hp. split.
  - intros pw. rewrite (ToggleProtect_locked dialog doc op w this Hd Hp). cbn zeta.
    destruct (String.eqb _ (HashString EmptyString)).
    + rewrite (new_events_app _ _ [EvMessage_MSG_CHANGE; EvSetDirty_DESCRIPTION; EvEventAdd])
        by (by rewrite trace_unlock_transition, trace_undo_recorded).
      cbn. intuition discriminate.
    + destruct (dialog true true) as [pw'|].
      * destruct (String.eqb _ (HashString pw')) eqn:Heq.
        -- apply String.eqb_eq in Heq.
           rewrite (new_events_app _ _
             [EvPasswordDialog true true (Some pw');
              EvMessage_MSG_CHANGE; EvSetDirty_DESCRIPTION; EvEventAdd]).
           ++ cbn. intros [[= ->]|[|[|[|[]]]]] Hne; try discriminate. congruence.
           ++ rewrite trace_unlock_transition. cbn [log_event trace].
              rewrite trace_undo_recorded, <- app_assoc. reflexivity.
        -- intros _ _. cbn [fst snd notify_change log_event materials].
           rewrite materials_undo_recorded, Hd. cbn. by rewrite Hp.
      * intros _ _. cbn [fst snd notify_change log_event materials].
        rewrite materials_undo_recorded, Hd. cbn. by rewrite Hp.
  - intros Hempty.
    assert (Hrun : forall d, ToggleProtect d doc op w =
                     unlock_transition this op doc (undo_recorded doc op w)).
    { intros d. rewrite (ToggleProtect_locked d doc op w this Hd Hp). cbn zeta.
      by rewrite Hempty, String.eqb_refl. }
    rewrite !Hrun. rewrite GetNodeData_unlock_transition. repeat split.
    + rewrite (new_events_app _ _ [EvMessage_MSG_CHANGE; EvSetDirty_DESCRIPTION; EvEventAdd])
        by (by rewrite trace_unlock_transition, trace_undo_recorded).
      reflexivity.
    + intros d. apply Hrun.
Qed.

(** ** The programmatic lock *)

(** C7. [ContainerProtect] returns [false] and changes nothing when the
    node is null, is no container, or is already locked. Otherwise it
    returns [true] and leaves a container whose node data has
    [m_protected] set and, as [m_protectionHash], the given hash when that
    is non-empty and [HashString(pass)] when it is empty. When [packup] is
    set the result is that of [HideNodes(op, nullptr, true)] on that
    container: every node the traversal visits below it is hidden and
    deselected, the tags and the referenced materials by the two flags.
    When [packup] is not set no node and no material is touched. *)
Theorem ContainerProtect_fails_or_locks op pass hash packup w :
  (op = None \/
   (exists o, op = Some o /\
      (GetType o <> Ocontainer \/ GetNodeData o = None \/
       exists data, GetNodeData o = Some data /\ m_protected data = true)) ->
   ContainerProtect op pass hash packup w = (false, op, w)) /\
  (forall o this,
     op = Some o -> IsContainer o this -> m_protected this = false ->
     let locked :=
       mkContainerObject (m_customIcon this) true
         (if IsEmpty hash then HashString pass else hash) in
     exists o' w',
       ContainerProtect op pass hash packup w = (true, Some o', w') /\
       GetNodeData o' = Some locked /\
       GetType o' = GetType o /\
       if packup
       then
         (o', w') = HideNodes (set_nodedata (Some locked) o) false true w /\
         toggled true (down o) (down o') /\
         (if GetBool NRCONTAINER_HIDE_TAGS (GetDataInstance o)
          then toggled true (tags o) (tags o')
          else tags o' = tags o) /\
         (if GetBool NRCONTAINER_HIDE_MATERIALS (GetDataInstance o)
          then materials_toggled true o (materials w) (materials w')
          else materials w' = materials w)
       else o' = set_nodedata (Some locked) o /\ w' = w).
Proof.
  split.
  - intros [->|(o & -> & Hfail)]; [reflexivity|]. unfold ContainerProtect.
    destruct (GetType o =? Ocontainer) eqn:Ht; [|reflexivity]. cbn [negb].
    destruct Hfail as [Hne|[->|(data & -> & ->)]]; try reflexivity.
    apply Z.eqb_eq in Ht. contradiction.
  - intros o this -> [Ht Hd] Hp. cbn zeta. unfold ContainerProtect.
    rewrite Ht, Z.eqb_refl, Hd, Hp. cbn [negb].
    assert (El : forall h, set_protectionHash h (set_protected true this)
                           = mkContainerObject (m_customIcon this) true h)
      by reflexivity.
    rewrite El. clear El.
    set (locked := mkContainerObject (m_customIcon this) true
                     (if IsEmpty hash then HashString pass else hash)).
    destruct packup; [|by exists (set_nodedata (Some locked) o), w].
    pose proof (HideNodes_GetNodeData (set_nodedata (Some locked) o) false true w) as Hn.
    pose proof (HideNodes_down (set_nodedata (Some locked) o) false true w) as Hdn.
    pose proof (HideNodes_tags (set_nodedata (Some locked) o) false true w) as Htg.
    pose proof (HideNodes_materials (set_nodedata (Some locked) o) false true w) as Hm.
    pose proof (HideNodes_materials_toggled (set_nodedata (Some locked) o) false true w)
      as Hmt.
    pose proof (HideNodes_fst (set_nodedata (Some locked) o) false true w) as Hfst.
    destruct (HideNodes (set_nodedata (Some locked) o) false true w) as [o' w'].
    cbn [fst snd negb orb set_nodedata GetDataInstance down tags GetNodeData] in *.
    exists o', w'. split; [reflexivity|]. split; [exact Hn|]. split.
    { rewrite Hfst. by destruct (GetBool NRCONTAINER_HIDE_TAGS _), o. }
    split; [reflexivity|]. split; [|split].
    + rewrite Hdn, HideHierarchy_fst_same_level. apply toggled_fmap.
    + rewrite Htg. destruct (GetBool NRCONTAINER_HIDE_TAGS _);
        [apply toggled_fmap|reflexivity].
    + destruct (GetBool NRCONTAINER_HIDE_MATERIALS _); [|exact Hm].
      assert (Er : referenced (set_nodedata (Some locked) o) (materials w)
                   = referenced o (materials w))
        by (unfold referenced; by rewrite !texture_links_unfold).
      intros j. specialize (Hmt eq_refl j). by rewrite Er in Hmt.
Qed.

(** ** Persistence *)

(** C9. [Write] succeeds and emits the icon part followed by the lock
    flag and, exactly when the flag is set, the hash. Reading that record
    at a level of 1000 or more succeeds and yields the written lock flag
    and, when locked, the written hash. Reading a record of the version-0
    layout at a level below 1000 succeeds and leaves the lock flag alone,
    so that a container fresh from [Init] is unlocked after it. *)
Theorem Write_Read_lock_state src dst hf level :
  Write src hf = (true, hf ++ version0_record (m_customIcon src) ++ version1000_record src) /\
  (existsb is_hash_field (snd (Write src [])) = m_protected src) /\
  (1000 <= level ->
   exists dst',
     Read dst (snd (Write src [])) level = (true, dst', []) /\
     m_protected dst' = m_protected src /\
     (m_protected src = true -> m_protectionHash dst' = m_protectionHash src)) /\
  (level < 1000 ->
   forall icon,
     (exists dst',
        Read dst (version0_record icon) level = (true, dst', []) /\
        m_protected dst' = m_protected dst) /\
     (forall this0 node,
        exists dst',
          Read (snd (fst (Init this0 (Some node)))) (version0_record icon) level
            = (true, dst', []) /\
          m_protected dst' = false)).
Proof.
  assert (HW : forall hf0, Write src hf0 =
    (true, hf0 ++ version0_record (m_customIcon src) ++ version1000_record src)).
  { intros hf0. unfold Write, version0_record, version1000_record,
      WriteBool, WriteImage, WriteString, super_Write. cbn [negb].
    destruct (m_customIcon src) as [bmp|], (m_protected src);
      rewrite <- ?app_assoc; reflexivity. }
  assert (HR0 : forall d icon, level < 1000 ->
    Read d (version0_record icon) level =
    (true, mkContainerObject icon (m_protected d) (m_protectionHash d), [])).
  { intros d icon Hl. apply Z.leb_gt in Hl.
    unfold Read, version0_record, super_Read. cbn [negb ReadBool].
    destruct icon as [bmp|]; cbn; rewrite Hl; reflexivity. }
  split; [apply HW|]. split; [|split].
  - rewrite HW. cbn [snd app]. unfold version0_record, version1000_record.
    destruct (m_customIcon src), (m_protected src); reflexivity.
  - intros Hl. apply Z.leb_le in Hl. rewrite HW. cbn [snd app].
    unfold Read, version0_record, version1000_record, super_Read. cbn [negb ReadBool].
    destruct (m_customIcon src) as [bmp|]; cbn; rewrite Hl;
      destruct (m_protected src); cbn;
      (eexists; split; [reflexivity|split; [reflexivity|intros; first [reflexivity|discriminate]]]).
  - intros Hl icon. split.
    + rewrite (HR0 dst icon Hl). eauto.
    + intros this0 node. rewrite (HR0 _ icon Hl). eauto.
Qed.

(** ** Locking and unlocking again *)

Lemma visibleb_nbits n : visibleb n = true -> nbits n = nbits_all false.
Proof.
  unfold visibleb. destruct (nbits n) as [[] [] [] [] [] []]; cbn;
    first [reflexivity|discriminate].
Qed.

Lemma all_visible_node_at p : forall n c,
  all_visible n = true -> node_at p n = Some c -> nbits c = nbits_all false.
Proof.
  induction p as [|i p IH]; intros n c Hv Hc.
  - injection Hc as <-. destruct n. cbn in Hv. apply andb_prop in Hv as [Hv _].
    by apply visibleb_nbits.
  - cbn [node_at] in Hc. destruct (down n !! i) as [d|] eqn:Hd; [|discriminate].
    apply (IH d c); [|exact Hc].
    destruct n. cbn in Hv, Hd. apply andb_prop in Hv as [_ Hv].
    rewrite forallb_forall in Hv. apply Hv.
    apply list_elem_of_In, list_elem_of_lookup. eauto.
Qed.

Lemma all_visible_chain_at chain p c :
  forallb all_visible chain = true -> chain_at p chain = Some c ->
  nbits c = nbits_all false.
Proof.
  intros Hv Hc. destruct p as [|i p]; [discriminate|]. cbn [chain_at] in Hc.
  destruct (chain !! i) as [n|] eqn:Hn; [|discriminate].
  apply (all_visible_node_at p n c); [|exact Hc].
  rewrite forallb_forall in Hv. apply Hv.
  apply list_elem_of_In, list_elem_of_lookup. eauto.
Qed.

(** Revealing a chain whose nodes are all visible restores it. *)
Lemma restored_reveal chain :
  forallb all_visible chain = true -> restored chain (map (turned false) chain).
Proof.
  intros Hv p n Hn.
  pose proof (chain_at_turned false true p chain false) as E.
  rewrite HideHierarchy_fst_same_level, Hn in E. rewrite E.
  destruct (visits true chain p); [|eauto].
  eexists. split; [reflexivity|].
  by rewrite turned_nbits, turned_tags, (all_visible_chain_at chain p n Hv Hn).
Qed.

Lemma deselected_fmap v chain : deselected chain (map (turned v) chain).
Proof.
  intros p Hv. destruct (toggled_fmap v chain p Hv) as (n & Hn & _ & Hd). eauto.
Qed.

Lemma restored_materials op before after :
  referenced_visible op before = true ->
  materials_toggled false op before after ->
  restored before after.
Proof.
  intros Hv Ht p n Hn. destruct p as [|j p]; [discriminate|].
  pose proof (Ht j) as Hj. cbn [chain_at] in *.
  destruct (before !! j) as [m|] eqn:Hm; [|discriminate].
  destruct (bool_decide _) eqn:Hin.
  - destruct Hj as (m' & [= <-] & -> & _). rewrite node_at_turned, Hn.
    destruct (visits_from p m); [|eauto].
    eexists. split; [reflexivity|]. rewrite turned_nbits, turned_tags.
    split; [|reflexivity]. symmetry. apply (all_visible_node_at p m n); [|exact Hn].
    unfold referenced_visible in Hv. rewrite forallb_forall in Hv.
    apply bool_decide_eq_true_1, list_elem_of_In, Hv in Hin. by rewrite Hm in Hin.
  - rewrite Hj. eauto.
Qed.

Lemma GetLink_Mbase_kinds data (mats mats' : list BaseList2D) :
  (forall j : nat, kind <$> mats' !! j = kind <$> mats !! j) ->
  GetLink_Mbase data mats' = GetLink_Mbase data mats.
Proof.
  intros Hk. unfold GetLink_Mbase. destruct data as [| |?|[j|]]; try reflexivity.
  specialize (Hk j).
  destruct (mats' !! j) as [m'|], (mats !! j) as [m|]; cbn in Hk; try discriminate;
    [|reflexivity].
  injection Hk as ->. reflexivity.
Qed.

Lemma HideNodes_referenced op op' doc hide w :
  referenced op' (materials (snd (HideNodes op doc hide w))) =
  referenced op' (materials w).
Proof.
  unfold referenced. apply list_omap_ext.
  induction (texture_links op') as [|d l IH]; constructor; [|exact IH].
  apply GetLink_Mbase_kinds. intros j. rewrite HideNodes_lookup.
  destruct (_ && _); [|reflexivity].
  destruct (materials w !! j); cbn; [by rewrite turned_kind|reflexivity].
Qed.

Lemma referenced_set_nodedata d op mats :
  referenced (set_nodedata d op) mats = referenced op mats.
Proof. unfold referenced. by rewrite !texture_links_unfold. Qed.

Lemma referenced_HideNodes op doc hide w mats :
  referenced (fst (HideNodes op doc hide w)) mats = referenced op mats.
Proof. unfold referenced. by rewrite HideNodes_texture_links. Qed.

Lemma materials_notify_change w : materials (notify_change w) = materials w.
Proof. reflexivity. Qed.

(** The state after locking with [password] and unlocking again. *)
Lemma ToggleProtect_twice dialog1 dialog2 doc op w this password password2 :
  GetNodeData op = Some this ->
  m_protected this = false ->
  dialog1 false true = Some password ->
  dialog2 true true = Some password2 ->
  HashString password2 = HashString password ->
  let r1 := ToggleProtect dialog1 doc op w in
  let r2 := ToggleProtect dialog2 doc (fst r1) (snd r1) in
  GetNodeData (fst r1) =
    Some (mkContainerObject (m_customIcon this) true (HashString password)) /\
  GetNodeData (fst r2) =
    Some (mkContainerObject (m_customIcon this) false (HashString password)) /\
  down (fst r2) = map (turned false) (down op) /\
  tags (fst r2) = map (turned false) (tags op) /\
  materials_toggled false op (materials w) (materials (snd r2)).
Proof.
  intros Hd Hp H1 H2 Hh. cbn zeta.
  rewrite (ToggleProtect_unlocked dialog1 doc op w this Hd Hp). cbn zeta. rewrite H1.
  set (w1 := log_event _ _).
  assert (Hw1 : materials w1 = materials w)
    by (subst w1; cbn [log_event materials]; apply materials_undo_recorded).
  pose proof (GetNodeData_lock_transition this password op doc w1) as Hd1.
  split; [exact Hd1|].
  destruct (ToggleProtect_match dialog2 doc _ (snd (lock_transition this password op doc w1))
              _ password2 Hd1 eq_refl H2 Hh) as (w2 & Hw2 & ->).
  rewrite GetNodeData_unlock_transition. split; [reflexivity|].
  unfold unlock_transition. cbn [fst snd].
  rewrite HideNodes_down, HideNodes_tags, HideHierarchy_fst_same_level.
  cbn [negb orb set_nodedata down tags].
  unfold lock_transition in *. cbn [fst snd] in *.
  rewrite HideNodes_down, HideNodes_tags, HideHierarchy_fst_same_level.
  cbn [negb orb set_nodedata down tags GetDataInstance].
  split; [|split].
  - rewrite map_map. apply map_ext. intros. apply turned_turned.
  - destruct (GetBool NRCONTAINER_HIDE_TAGS _); [|reflexivity].
    rewrite map_map. apply map_ext. intros. apply turned_turned.
  - intros j. rewrite materials_notify_change, HideNodes_lookup. cbn [negb orb andb].
    rewrite referenced_set_nodedata, referenced_HideNodes, referenced_set_nodedata.
    rewrite Hw2, materials_notify_change, HideNodes_referenced, Hw1.
    rewrite HideNodes_lookup, referenced_set_nodedata, Hw1.
    cbn [set_nodedata GetDataInstance].
    destruct (bool_decide (j ∈ referenced op (materials w))) eqn:Hin.
    + apply bool_decide_eq_true_1, referenced_lookup in Hin as [m Hm].
      exists m. split; [exact Hm|]. split; [|apply turned_shows]. rewrite Hm.
      destruct (_ && true); cbn; [by rewrite turned_turned|reflexivity].
    + by rewrite andb_false_r.
Qed.

(** C1. Take a container whose children are all visible, with everything
    below them. Locking it with [ToggleProtect] and unlocking it with a
    second [ToggleProtect] and a password of the same hash leaves the
    container unlocked and finds every node below it at its place with the
    six visibility bits (and the tags) it had before locking, whatever the
    tags of the container and the materials looked like; every node the
    traversal visits is found deselected: the selection is not brought
    back. The same holds for the tags of the container when they were all
    visible, and for the materials when the referenced ones were. *)
Theorem ToggleProtect_round_trip dialog1 dialog2 doc op w this password password2 :
  GetNodeData op = Some this ->
  m_protected this = false ->
  dialog1 false true = Some password ->
  dialog2 true true = Some password2 ->
  HashString password2 = HashString password ->
  forallb all_visible (down op) = true ->
  let r1 := ToggleProtect dialog1 doc op w in
  let r2 := ToggleProtect dialog2 doc (fst r1) (snd r1) in
  m_protected <$> GetNodeData (fst r1) = Some true /\
  m_protected <$> GetNodeData (fst r2) = Some false /\
  restored (down op) (down (fst r2)) /\
  deselected (down op) (down (fst r2)) /\
  (forallb all_visible (tags op) = true -> restored (tags op) (tags (fst r2))) /\
  deselected (tags op) (tags (fst r2)) /\
  (referenced_visible op (materials w) = true ->
   restored (materials w) (materials (snd r2))) /\
  (forall (j : nat) m, j ∈ referenced op (materials w) ->
     materials w !! j = Some m ->
     exists m', materials (snd r2) !! j = Some m' /\ GetBit BIT_ACTIVE m' = false).
Proof.
  intros Hd Hp H1 H2 Hh Vd.
  destruct (ToggleProtect_twice dialog1 dialog2 doc op w this password password2
              Hd Hp H1 H2 Hh) as (E1 & E2 & Ed & Et & Em).
  cbn zeta. rewrite E1, E2, Ed, Et.
  repeat split; auto using restored_reveal, deselected_fmap.
  - intros Vm. eapply restored_materials; eauto.
  - intros j m Hin Hm. specialize (Em j).
    rewrite bool_decide_eq_true_2 in Em by exact Hin.
    destruct Em as (m0 & _ & -> & _). eauto using turned_deselected.
Qed.

End Claims.

(** * The sample scene, evaluated *)

Example A_locked_children_hidden :
  map hiddenb (down (fst Scene.A_locked)) = [true; true; true] /\
  map (GetBit BIT_ACTIVE) (down (fst Scene.A_locked)) = [false; false; false].
Proof. split; vm_compute; reflexivity. Qed.

Example A_locked_stops_at_boundaries :
  map (fun n => map hiddenb (down n)) (down (fst Scene.A_locked))
  = [[true]; [false]; [false]].
Proof. vm_compute. reflexivity. Qed.

Example A_locked_tags_and_materials :
  tags (fst Scene.A_locked) = tags Scene.A /\
  map hiddenb (materials (snd Scene.A_locked)) = [true; false].
Proof. split; vm_compute; reflexivity. Qed.

Example A_locked_undo_log :
  map (fun u => match u with
                | AddUndo t _ => Some t
                | _ => None
                end) (undos (snd Scene.A_locked))
  = [None; Some UNDOTYPE_CHANGE_SMALL; None;
     Some UNDOTYPE_BITS; Some UNDOTYPE_BITS; Some UNDOTYPE_BITS; Some UNDOTYPE_BITS;
     Some UNDOTYPE_BITS].
Proof. vm_compute. reflexivity. Qed.

Example A_unlocked_all_visible :
  forallb all_visible (down (fst Scene.A_unlocked)) = true /\
  forallb all_visible (materials (snd Scene.A_unlocked)) = true /\
  map (GetBit BIT_ACTIVE) (down (fst Scene.A_unlocked)) = [false; false; false] /\
  map (GetBit BIT_ACTIVE) (down Scene.A) = [true; false; true].
Proof. repeat split; vm_compute; reflexivity. Qed.

Example A_refused_unchanged :
  m_protected <$> GetNodeData (fst Scene.A_refused) = Some true /\
  map hiddenb (down (fst Scene.A_refused)) = [true; true; true] /\
  map hiddenb (materials (snd Scene.A_refused)) = [true; false] /\
  new_events (snd Scene.A_locked) (snd Scene.A_refused)
  = [EvPasswordDialog true true (Some "xyz"); EvMessageDialog_PASSWORD_INVALID;
     EvMessage_MSG_CHANGE; EvSetDirty_DESCRIPTION; EvEventAdd].
Proof. repeat split; vm_compute; reflexivity. Qed.

Example A_protected_and_packed :
  let r := ContainerProtect (Sym := Scene.symbols) (Some Scene.A) "abc" EmptyString true
             Scene.world0 in
  fst (fst r) = true /\
  (fun o => map hiddenb (down o)) <$> snd (fst r) = Some [true; true; true] /\
  (fun o => map (fun n => map hiddenb (down n)) (down o)) <$> snd (fst r)
    = Some [[true]; [false]; [false]] /\
  (fun o => m_protectionHash <$> GetNodeData o) <$> snd (fst r) = Some (Some "#abc") /\
  map hiddenb (materials (snd r)) = [true; false] /\
  undos (snd r) = [].
Proof. repeat split; vm_compute; reflexivity. Qed.

(** * The claims on the sample scene *)

Lemma HideHierarchy_toggles_six_bits_together_witness :
  visits (Sym := Scene.symbols) true (down Scene.A) [0; 0]%nat = true /\
  exists n', chain_at [0; 0]%nat
      (fst (HideHierarchy (Sym := Scene.symbols) (down Scene.A) true true true)) = Some n' /\
    (forall b : NBIT, GetNBit b n' = true) /\ GetBit BIT_ACTIVE n' = false.
Proof.
  split; [reflexivity|].
  apply (HideHierarchy_toggles_six_bits_together (Sym := Scene.symbols)
           (down Scene.A) true true true [0; 0]%nat).
  reflexivity.
Defined.

Lemma HideNodes_keeps_locked_container_content_witness :
  chain_at [1]%nat (down Scene.A) = Some Scene.B /\
  chain_at ([1] ++ [0])%nat
    (down (fst (HideNodes (Sym := Scene.symbols) Scene.A true true Scene.world0)))
  = Some Scene.X.
Proof.
  split; [reflexivity|].
  apply (HideNodes_keeps_locked_container_content (Sym := Scene.symbols)
           Scene.A true Scene.world0 [1]%nat Scene.B [0]%nat Scene.X);
    [reflexivity | reflexivity | reflexivity | discriminate | reflexivity].
Defined.

Lemma HideNodes_keeps_hash_object_content_witness :
  chain_at [2]%nat (down Scene.A) = Some Scene.N /\
  chain_at ([2] ++ [0])%nat
    (down (fst (HideNodes (Sym := Scene.symbols) Scene.A true false Scene.world0)))
  = Some Scene.Y.
Proof.
  split; [reflexivity|].
  apply (HideNodes_keeps_hash_object_content (Sym := Scene.symbols)
           Scene.A true false Scene.world0 [2]%nat Scene.N [0]%nat Scene.Y);
    [reflexivity | reflexivity | reflexivity | discriminate | reflexivity].
Defined.

Lemma ToggleProtect_round_trip_witness :
  forallb all_visible (down Scene.A) = true /\
  referenced_visible Scene.A
    [set_nbits (nbits_all true) Scene.M0; Scene.M1] = false /\
  restored (down Scene.A)
    (down (fst
       (ToggleProtect (Sym := Scene.symbols) (Scene.answers "abc") true
          (fst (ToggleProtect (Sym := Scene.symbols) (Scene.answers "abc") true
                  Scene.A
                  (mkWorld [set_nbits (nbits_all true) Scene.M0; Scene.M1] [] [])))
          (snd (ToggleProtect (Sym := Scene.symbols) (Scene.answers "abc") true
                  Scene.A
                  (mkWorld [set_nbits (nbits_all true) Scene.M0; Scene.M1] [] [])))))).
Proof.
  split; [reflexivity|]. split; [reflexivity|].
  apply (ToggleProtect_round_trip (Sym := Scene.symbols)
           (Scene.answers "abc") (Scene.answers "abc") true Scene.A
           (mkWorld [set_nbits (nbits_all true) Scene.M0; Scene.M1] [] [])
           (mkContainerObject None false EmptyString) "abc" "abc");
    reflexivity.
Defined.

(** Unlocking [locked_box] with its password leaves the stored hash in
    place: it is not the empty string afterwards. *)
Lemma ToggleProtect_unlock_keeps_hash :
  GetNodeData Scene.locked_box = Some (mkContainerObject None true "#abc") /\
  HashString (Symbols := Scene.symbols) "abc" = "#abc" /\
  exists this',
    GetNodeData
      (fst (ToggleProtect (Sym := Scene.symbols) (Scene.answers "abc") true
              Scene.locked_box Scene.world0)) = Some this' /\
    m_protected this' = false /\
    m_protectionHash this' <> EmptyString.
Proof.
  split; [reflexivity|]. split; [reflexivity|].
  exists (mkContainerObject None false "#abc").
  split; [vm_compute; reflexivity|]. split; [reflexivity|discriminate].
Defined.

Lemma ToggleProtect_unlocks_on_match_witness :
  exists w1,
    materials w1 = materials Scene.world0 /\
    ToggleProtect (Sym := Scene.symbols) (Scene.answers "abc") true
      Scene.locked_box Scene.world0 =
      (fst (HideNodes (Sym := Scene.symbols)
              (set_nodedata (Some (mkContainerObject None false "#abc")) Scene.locked_box)
              true false w1),
       notify_change
         (snd (HideNodes (Sym := Scene.symbols)
                 (set_nodedata (Some (mkContainerObject None false "#abc")) Scene.locked_box)
                 true false w1))) /\
    GetNodeData
      (fst (ToggleProtect (Sym := Scene.symbols) (Scene.answers "abc") true
              Scene.locked_box Scene.world0)) =
      Some (mkContainerObject None false "#abc").
Proof.
  apply (ToggleProtect_unlocks_on_match (Sym := Scene.symbols)
           (Scene.answers "abc") true Scene.locked_box Scene.world0
           (mkContainerObject None true "#abc") "abc");
    reflexivity.
Defined.

(** Dismissing the prompt while unlocking [locked_box] still signals the
    change. *)
Lemma ToggleProtect_cancelled_unlock_notifies :
  m_protected <$> GetNodeData Scene.locked_box = Some true /\
  new_events Scene.world0
    (snd (ToggleProtect (Sym := Scene.symbols) Scene.cancels true
            Scene.locked_box Scene.world0)) =
  [EvPasswordDialog true true None;
   EvMessage_MSG_CHANGE; EvSetDirty_DESCRIPTION; EvEventAdd].
Proof. split; vm_compute; reflexivity. Defined.

Lemma ToggleProtect_cancelled_witness :
  In (EvPasswordDialog false true None)
     (new_events Scene.world0
        (snd (ToggleProtect (Sym := Scene.symbols) Scene.cancels true
                Scene.A Scene.world0))) /\
  fst (ToggleProtect (Sym := Scene.symbols) Scene.cancels true Scene.A Scene.world0)
    = Scene.A /\
  materials (snd (ToggleProtect (Sym := Scene.symbols) Scene.cancels true
                    Scene.A Scene.world0)) = materials Scene.world0 /\
  (false = false ->
   forallb (fun e => negb (is_notification e))
     (new_events Scene.world0
        (snd (ToggleProtect (Sym := Scene.symbols) Scene.cancels true
                Scene.A Scene.world0))) = true).
Proof.
  split; [left; reflexivity|].
  apply (ToggleProtect_cancelled (Sym := Scene.symbols) Scene.cancels true
           Scene.A Scene.world0 (mkContainerObject None false EmptyString)
           false true);
    [reflexivity | left; reflexivity].
Defined.

Lemma ToggleProtect_authentication_witness :
  In (EvPasswordDialog true true (Some "xyz"))
     (new_events Scene.world0
        (snd (ToggleProtect (Sym := Scene.symbols) (Scene.answers "xyz") true
                Scene.locked_box Scene.world0))) /\
  fst (ToggleProtect (Sym := Scene.symbols) (Scene.answers "xyz") true
         Scene.locked_box Scene.world0) = Scene.locked_box.
Proof.
  split; [left; reflexivity|].
  apply (proj1 (ToggleProtect_authentication (Sym := Scene.symbols)
                  (Scene.answers "xyz") true Scene.locked_box Scene.world0
                  (mkContainerObject None true "#abc") eq_refl eq_refl) "xyz");
    [left; reflexivity | discriminate].
Defined.

Lemma ContainerProtect_fails_or_locks_witness :
  IsContainer (Sym := Scene.symbols) Scene.A (mkContainerObject None false EmptyString) /\
  (exists o' w',
     ContainerProtect (Sym := Scene.symbols) (Some Scene.A) "abc" EmptyString true
       Scene.world0 = (true, Some o', w') /\
     GetNodeData o' = Some (mkContainerObject None true "#abc") /\
     toggled (Sym := Scene.symbols) true (down Scene.A) (down o') /\
     tags o' = tags Scene.A /\
     materials_toggled (Sym := Scene.symbols) true Scene.A
       (materials Scene.world0) (materials w')) /\
  ContainerProtect (Sym := Scene.symbols) (Some Scene.locked_box) "abc" EmptyString true
    Scene.world0
  = (false, Some Scene.locked_box, Scene.world0).
Proof.
  split; [split; reflexivity|]. split.
  - pose proof (proj2 (ContainerProtect_fails_or_locks (Sym := Scene.symbols)
                         (Some Scene.A) "abc" EmptyString true Scene.world0)
                  Scene.A (mkContainerObject None false EmptyString)
                  eq_refl (conj eq_refl eq_refl) eq_refl) as H.
    cbv beta iota zeta in H. destruct H as (o' & w' & E & Hn & _ & _ & Hd & Ht & Hm).
    assert (Ft : GetBool (NRCONTAINER_HIDE_TAGS (Symbols := Scene.symbols))
                   (GetDataInstance Scene.A) = false) by reflexivity.
    assert (Fm : GetBool (NRCONTAINER_HIDE_MATERIALS (Symbols := Scene.symbols))
                   (GetDataInstance Scene.A) = true) by reflexivity.
    rewrite Ft in Ht. rewrite Fm in Hm.
    exists o', w'. repeat split; assumption.
  - apply (proj1 (ContainerProtect_fails_or_locks (Sym := Scene.symbols)
                    (Some Scene.locked_box) "abc" EmptyString true Scene.world0)).
    right. exists Scene.locked_box. split; [reflexivity|].
    right. right. exists (mkContainerObject None true "#abc"). split; reflexivity.
Defined.

Lemma Write_Read_lock_state_witness :
  1000 <= 1000 /\
  (exists dst',
     Read (mkContainerObject None false EmptyString)
       (snd (Write (mkContainerObject (Some [1; 2]) true "#abc") [])) 1000
       = (true, dst', []) /\
     m_protected dst' = true /\
     (true = true -> m_protectionHash dst' = "#abc")) /\
  0 < 1000 /\
  (exists dst',
     Read (mkContainerObject None false EmptyString) (version0_record (Some [7])) 0
       = (true, dst', []) /\
     m_protected dst' = false).
Proof.
  split; [lia|]. split.
  - apply (proj1 (proj2 (proj2 (Write_Read_lock_state (Sym := Scene.symbols)
             (mkContainerObject (Some [1; 2]) true "#abc")
             (mkContainerObject None false EmptyString) [] 1000)))).
    lia.
  - split; [lia|].
    apply (proj1 (proj2 (proj2 (proj2 (Write_Read_lock_state (Sym := Scene.symbols)
             (mkContainerObject (Some [1; 2]) true "#abc")
             (mkContainerObject None false EmptyString) [] 0))) ltac:(lia) (Some [7]))).
Defined.

(** * Further properties *)

Section Further.
Context {Sym : Symbols} {Cmd : CommandSymbols}.

(** ** The traversal *)

(** X1. A later traversal of a chain overrides an earlier one: the nodes are
    those of the later call alone. In particular a traversal repeated with
    the same [hide] changes nothing more. *)
Theorem HideHierarchy_last_call_wins root hide hide' doc doc' sameLevel :
  fst (HideHierarchy (fst (HideHierarchy root hide doc sameLevel)) hide' doc' sameLevel)
  = fst (HideHierarchy root hide' doc' sameLevel).
Proof.
  destruct sameLevel.
  - rewrite !HideHierarchy_fst_same_level, map_map.
    apply map_ext. intros. apply turned_turned.
  - rewrite !HideHierarchy_fst_single. destruct root as [|r next]; [reflexivity|].
    by rewrite turned_turned.
Qed.

Lemma testbit_clear_active b i :
  i <> 1 -> Z.testbit (Z.land b (Z.lnot BIT_ACTIVE)) i = Z.testbit b i.
Proof.
  intros Hi. destruct (Z.neg_nonneg_cases i) as [Hneg|Hpos].
  - by rewrite !Z.testbit_neg_r.
  - rewrite Z.land_spec, Z.lnot_spec by exact Hpos.
    change BIT_ACTIVE with (2 ^ 1). rewrite Z.pow2_bits_eqb by lia.
    destruct (Z.eqb_spec 1 i); [lia|]. apply andb_true_r.
Qed.

(** X2. The traversal neither adds nor removes a node, and of a node it
    changes nothing but the six bits and [BIT_ACTIVE]: kind, type,
    parameters, node data (the lock state of nested containers with it),
    tags, the number of children and every other bit of the bit field
    stay. *)
Theorem HideHierarchy_keeps_structure root hide doc sameLevel p :
  length (fst (HideHierarchy root hide doc sameLevel)) = length root /\
  match chain_at p root with
  | Some n =>
    exists n',
      chain_at p (fst (HideHierarchy root hide doc sameLevel)) = Some n' /\
      kind n' = kind n /\ GetType n' = GetType n /\
      GetDataInstance n' = GetDataInstance n /\ GetNodeData n' = GetNodeData n /\
      tags n' = tags n /\ length (down n') = length (down n) /\
      (forall i, i <> 1 -> Z.testbit (bits n') i = Z.testbit (bits n) i)
  | None => chain_at p (fst (HideHierarchy root hide doc sameLevel)) = None
  end.
Proof.
  split.
  - destruct sameLevel.
    + by rewrite HideHierarchy_fst_same_level, length_map.
    + rewrite HideHierarchy_fst_single. by destruct root.
  - rewrite chain_at_turned.
    destruct (chain_at p root) as [n|]; [|by destruct (visits _ _ _)].
    destruct (visits _ _ _); [|by eauto 10].
    exists (turned hide n). split; [reflexivity|].
    rewrite turned_kind, turned_GetType, turned_GetDataInstance,
      turned_GetNodeData, turned_tags, turned_down, turned_bits.
    repeat split; [|apply testbit_clear_active].
    destruct (hideChildren n); [apply length_map|reflexivity].
Qed.

Lemma HideHierarchy_turn_snd hide doc n :
  snd (HideHierarchy_turn hide doc n) =
  if doc then map (AddUndo UNDOTYPE_BITS) (reach n) else [].
Proof.
  induction n as [nb b k t bc nd tg dn _ IH] using BaseList2D_ind.
  rewrite HideHierarchy_turn_unfold. cbn zeta.
  set (n := mkNode nb b k t bc nd tg dn).
  assert (Hc : snd (HideHierarchy_chain hide doc dn) =
               if doc then map (AddUndo UNDOTYPE_BITS) (flat_map reach dn) else []).
  { induction IH as [|c l Hc _ IHl]; [by destruct doc|].
    cbn [HideHierarchy_chain flat_map].
    destruct (HideHierarchy_turn hide doc c), (HideHierarchy_chain hide doc l).
    cbn [snd] in *. rewrite Hc, IHl. destruct doc; [by rewrite map_app|reflexivity]. }
  change (reach n) with (n :: (if hideChildren n then flat_map reach dn else [])).
  change (down n) with dn.
  destruct (hideChildren n); cbn [snd]; [rewrite Hc|]; by destruct doc.
Qed.

Lemma HideHierarchy_chain_snd hide doc l :
  snd (HideHierarchy_chain hide doc l) =
  if doc then map (AddUndo UNDOTYPE_BITS) (flat_map reach l) else [].
Proof.
  induction l as [|c l IH]; [by destruct doc|].
  cbn [HideHierarchy_chain flat_map].
  pose proof (HideHierarchy_turn_snd hide doc c) as Hc.
  destruct (HideHierarchy_turn hide doc c), (HideHierarchy_chain hide doc l).
  cbn [snd] in *. rewrite Hc, IH. destruct doc; [by rewrite map_app|reflexivity].
Qed.

Lemma HideHierarchy_snd root hide doc sameLevel :
  snd (HideHierarchy root hide doc sameLevel) =
  if doc then map (AddUndo UNDOTYPE_BITS) (reached sameLevel root) else [].
Proof.
  destruct sameLevel; [apply HideHierarchy_chain_snd|].
  unfold HideHierarchy, reached. destruct root as [|r next]; [by destruct doc|].
  pose proof (HideHierarchy_turn_snd hide doc r) as Hr.
  by destruct (HideHierarchy_turn hide doc r).
Qed.

Lemma reach_visits_from n : forall c,
  In c (reach n) <-> exists p, visits_from p n = true /\ node_at p n = Some c.
Proof.
  induction n as [nb b k t bc nd tg dn _ IH] using BaseList2D_ind.
  set (n := mkNode nb b k t bc nd tg dn). intros c.
  change (reach n) with (n :: (if hideChildren n then flat_map reach dn else [])).
  split.
  - intros [<-|Hin]; [by exists []|].
    destruct (hideChildren n) eqn:Hh; [|destruct Hin].
    apply in_flat_map in Hin as (d & Hd & Hc).
    apply list_elem_of_In, list_elem_of_lookup in Hd as [i Hi].
    rewrite Forall_forall in IH.
    apply (IH d) in Hc as (p & Hv & Hp);
      [|apply list_elem_of_lookup; eauto].
    exists (i :: p). cbn [visits_from node_at]. change (down n) with dn.
    by rewrite Hh, Hi.
  - intros ([|i p] & Hv & Hp).
    + injection Hp as <-. by left.
    + right. cbn [visits_from node_at] in Hv, Hp. change (down n) with dn in Hv, Hp.
      destruct (hideChildren n); [|discriminate]. cbn [andb] in Hv.
      destruct (dn !! i) as [d|] eqn:Hi; [|discriminate].
      apply in_flat_map. exists d.
      assert (Hd : d ∈ dn) by (apply list_elem_of_lookup; eauto).
      split; [by apply list_elem_of_In|].
      rewrite Forall_forall in IH. apply (IH d Hd). eauto.
Qed.

(** X3. With a document, the traversal records one [UNDOTYPE_BITS] entry for
    each node it visits and for no other, in the order of the visits, each
    holding the node as it was before the call; without a document it
    records nothing. *)
Theorem HideHierarchy_undo_log root hide doc sameLevel :
  snd (HideHierarchy root hide doc sameLevel) =
    (if doc then map (AddUndo UNDOTYPE_BITS) (reached sameLevel root) else []) /\
  (forall n, In n (reached sameLevel root) <->
             exists p, visits sameLevel root p = true /\ chain_at p root = Some n).
Proof.
  split; [apply HideHierarchy_snd|]. intros n. unfold reached. split.
  - destruct sameLevel.
    + intros (r & Hr & Hn)%in_flat_map.
      apply list_elem_of_In, list_elem_of_lookup in Hr as [i Hi].
      apply reach_visits_from in Hn as (p & Hv & Hp).
      exists (i :: p). cbn [visits chain_at orb andb]. by rewrite Hi.
    + destruct root as [|r next]; [intros []|].
      intros (p & Hv & Hp)%reach_visits_from. by exists (0%nat :: p).
  - intros ([|i p] & Hv & Hp); [discriminate|]. cbn [visits chain_at] in Hv, Hp.
    apply andb_prop in Hv as [Hi Hv].
    destruct (root !! i) as [r|] eqn:Hr; [|discriminate].
    assert (Hin : In n (reach r)) by (apply reach_visits_from; eauto).
    destruct sameLevel.
    + apply in_flat_map. exists r. split; [|exact Hin].
      apply list_elem_of_In, list_elem_of_lookup. eauto.
    + cbn [orb] in Hi. apply Nat.eqb_eq in Hi as ->.
      destruct root as [|r' next]; [discriminate|]. by injection Hr as ->.
Qed.

(** ** The material resolver *)

Lemma HideMaterials_tag_link hide doc tag w :
  HideMaterials_tag hide doc tag w =
  match texture_link tag with
  | Some data => HideMaterials_link hide doc data w
  | None => w
  end.
Proof.
  unfold HideMaterials_tag, texture_link, HideMaterials_link.
  destruct (GetType tag =? Ttexture); [|reflexivity].
  by destruct (GetParameter _ _).
Qed.

Lemma tag_loop_links hide doc tg : forall w,
  fold_left (fun w tag => HideMaterials_tag hide doc tag w) tg w =
  fold_left (fun w d => HideMaterials_link hide doc d w) (omap texture_link tg) w.
Proof.
  induction tg as [|tag tg IH]; intros w; [reflexivity|].
  cbn [fold_left]. rewrite IH, HideMaterials_tag_link.
  change (omap texture_link (tag :: tg))
    with (match texture_link tag with
          | Some d => d :: omap texture_link tg
          | None => omap texture_link tg end).
  by destruct (texture_link tag).
Qed.

(** [HideMaterials] is one step per parameter of [texture_links]. *)
Lemma HideMaterials_links op hide doc : forall w,
  HideMaterials op hide doc w =
  fold_left (fun w d => HideMaterials_link hide doc d w) (texture_links op) w.
Proof.
  induction op as [nb b k t bc nd tg dn _ IH] using BaseList2D_ind. intros w.
  rewrite HideMaterials_unfold, texture_links_unfold. cbn [tags down].
  rewrite fold_left_app, <- (tag_loop_links hide doc).
  generalize (fold_left (fun w tag => HideMaterials_tag hide doc tag w) tg w).
  induction IH as [|c dn Hc _ IHdn]; intros w'; [reflexivity|].
  cbn [fold_left flat_map]. rewrite fold_left_app, IHdn, Hc. reflexivity.
Qed.

(** X4. When no texture tag below [op] holds a link that resolves to a
    material (no texture tags, unset or dangling links, links to other
    nodes), [HideMaterials] leaves materials, undo log and trace exactly
    as they are. *)
Theorem HideMaterials_nothing_referenced op hide doc w :
  referenced op (materials w) = [] ->
  HideMaterials op hide doc w = w.
Proof.
  rewrite HideMaterials_links. unfold referenced.
  induction (texture_links op) as [|d l IH]; [reflexivity|].
  change (omap (fun data => GetLink_Mbase data (materials w)) (d :: l))
    with (match GetLink_Mbase d (materials w) with
          | Some i => i :: omap (fun data => GetLink_Mbase data (materials w)) l
          | None => omap (fun data => GetLink_Mbase data (materials w)) l end).
  destruct (GetLink_Mbase d (materials w)) eqn:Hd; [discriminate|].
  intros Hl. cbn [fold_left]. unfold HideMaterials_link at 2. rewrite Hd. by apply IH.
Qed.

Lemma texture_links_below p : forall op x d,
  node_at p op = Some x -> In d (texture_links x) -> In d (texture_links op).
Proof.
  induction p as [|i p IH]; intros op x d Hx Hd.
  - by injection Hx as <-.
  - cbn [node_at] in Hx. destruct (down op !! i) as [c|] eqn:Hc; [|discriminate].
    rewrite texture_links_unfold. apply in_or_app. right.
    apply in_flat_map. exists c. split; [|eauto].
    apply list_elem_of_In, list_elem_of_lookup. eauto.
Qed.

(** X5. The material side does not stop where the traversal of the children
    stops: a material linked from a texture tag of any object below the
    container, also one inside a nested locked container, is turned by
    [HideNodes] whenever [HideNodes] handles materials at all. *)
Theorem HideNodes_materials_cross_boundaries op doc hide w p x tag data (j : nat) :
  node_at p op = Some x ->
  In tag (tags x) ->
  texture_link tag = Some data ->
  GetLink_Mbase data (materials w) = Some j ->
  negb hide || GetBool NRCONTAINER_HIDE_MATERIALS (GetDataInstance op) = true ->
  exists m,
    materials w !! j = Some m /\
    materials (snd (HideNodes op doc hide w)) !! j = Some (turned hide m) /\
    shows hide (turned hide m).
Proof.
  intros Hx Htag Hd Hj Hflag.
  assert (Hin : j ∈ referenced op (materials w)).
  { unfold referenced. apply list_elem_of_omap. exists data. split; [|exact Hj].
    apply list_elem_of_In, (texture_links_below p op x data Hx).
    rewrite texture_links_unfold. apply in_or_app. left.
    apply list_elem_of_In, list_elem_of_omap. exists tag.
    split; [by apply list_elem_of_In|exact Hd]. }
  pose proof (HideNodes_materials_toggled op doc hide w Hflag j) as Ht.
  rewrite bool_decide_eq_true_2 in Ht by exact Hin. exact Ht.
Qed.

(** ** The lock state machine *)

Lemma bits_recorded_refl doc w : bits_recorded doc w w.
Proof. exists []. by rewrite app_nil_r. Qed.

Lemma bits_recorded_trans doc w1 w2 w3 :
  bits_recorded doc w1 w2 -> bits_recorded doc w2 w3 -> bits_recorded doc w1 w3.
Proof.
  intros (r1 & E1 & B1 & D1) (r2 & E2 & B2 & D2). exists (r1 ++ r2).
  rewrite E2, E1, <- app_assoc, forallb_app, B1, B2. repeat split.
  intros Hd. by rewrite D1, D2.
Qed.

Lemma bits_recorded_hierarchy root hide doc same w w' :
  undos w' = undos w ++ snd (HideHierarchy root hide doc same) ->
  bits_recorded doc w w'.
Proof.
  intros E. eexists. split; [exact E|]. rewrite HideHierarchy_snd.
  destruct doc; [|by split]. split; [|discriminate].
  by induction (reached same root).
Qed.

Lemma bits_recorded_link hide doc d w :
  bits_recorded doc w (HideMaterials_link hide doc d w).
Proof.
  unfold HideMaterials_link. destruct (GetLink_Mbase _ _) as [i|];
    [|apply bits_recorded_refl].
  destruct (HideHierarchy (drop i (materials w)) hide doc false) as [mat u] eqn:E.
  eapply (bits_recorded_hierarchy (drop i (materials w)) hide doc false).
  by rewrite E.
Qed.

Lemma bits_recorded_materials op hide doc w :
  bits_recorded doc w (HideMaterials op hide doc w).
Proof.
  rewrite HideMaterials_links. revert w.
  induction (texture_links op) as [|d l IH]; intros w; [apply bits_recorded_refl|].
  cbn [fold_left]. eapply bits_recorded_trans; [apply bits_recorded_link|apply IH].
Qed.

Lemma bits_recorded_HideNodes op doc hide w :
  bits_recorded doc w (snd (HideNodes op doc hide w)).
Proof.
  unfold HideNodes. destruct hide.
  - destruct (HideHierarchy (down op) true doc true) as [d u] eqn:Ed.
    assert (B1 : bits_recorded doc w (add_undos u w))
      by (eapply (bits_recorded_hierarchy (down op) true doc true); by rewrite Ed).
    destruct (GetBool NRCONTAINER_HIDE_TAGS _).
    + destruct (HideHierarchy (tags (set_down d op)) true doc true) as [t u'] eqn:Et.
      assert (B2 : bits_recorded doc (add_undos u w) (add_undos u' (add_undos u w)))
        by (eapply (bits_recorded_hierarchy _ true doc true); by rewrite Et).
      destruct (GetBool NRCONTAINER_HIDE_MATERIALS _); cbn [snd];
        eauto using bits_recorded_trans, bits_recorded_materials.
    + destruct (GetBool NRCONTAINER_HIDE_MATERIALS _); cbn [snd];
        eauto using bits_recorded_trans, bits_recorded_materials.
  - destruct (HideHierarchy (down op) false doc true) as [d u] eqn:Ed.
    destruct (HideHierarchy (tags (set_down d op)) false doc true) as [t u'] eqn:Et.
    cbn [snd].
    assert (B1 : bits_recorded doc w (add_undos u w))
      by (eapply (bits_recorded_hierarchy (down op) false doc true); by rewrite Ed).
    assert (B2 : bits_recorded doc (add_undos u w) (add_undos u' (add_undos u w)))
      by (eapply (bits_recorded_hierarchy _ false doc true); by rewrite Et).
    eauto using bits_recorded_trans, bits_recorded_materials.
Qed.

Lemma bits_recorded_same_undos doc w1 w2 w3 :
  undos w1 = undos w2 -> bits_recorded doc w2 w3 -> bits_recorded doc w1 w3.
Proof. intros E (r & ? & ?). exists r. by rewrite E. Qed.

Lemma bits_recorded_unlock_transition this op doc w :
  bits_recorded doc w (snd (unlock_transition this op doc w)).
Proof.
  destruct (bits_recorded_HideNodes (set_nodedata (Some (set_protected false this)) op)
              doc false w) as (r & ? & ?).
  by exists r.
Qed.

Lemma bits_recorded_lock_transition this pw op doc w :
  bits_recorded doc w (snd (lock_transition this pw op doc w)).
Proof.
  unfold lock_transition.
  destruct (bits_recorded_HideNodes
              (set_nodedata (Some (set_protectionHash (HashString pw)
                                     (set_protected true this))) op)
              doc true w) as (r & ? & ?).
  by exists r.
Qed.

Lemma bits_recorded_eq doc w w' : undos w' = undos w -> bits_recorded doc w w'.
Proof. intros E. exists []. by rewrite app_nil_r. Qed.

Lemma bits_recorded_ToggleProtect dialog doc op w :
  bits_recorded doc (undo_recorded doc op w) (snd (ToggleProtect dialog doc op w)).
Proof.
  destruct (GetNodeData op) as [this|] eqn:Hd.
  - destruct (m_protected this) eqn:Hp.
    + rewrite (ToggleProtect_locked dialog doc op w this Hd Hp). cbn zeta.
      destruct (String.eqb _ (HashString EmptyString));
        [apply bits_recorded_unlock_transition|].
      destruct (dialog true true) as [pw|]; [|by apply bits_recorded_eq].
      destruct (String.eqb _ _); [|by apply bits_recorded_eq].
      eapply bits_recorded_same_undos; [|apply bits_recorded_unlock_transition].
      reflexivity.
    + rewrite (ToggleProtect_unlocked dialog doc op w this Hd Hp). cbn zeta.
      destruct (dialog false true) as [pw|]; [|by apply bits_recorded_eq].
      eapply bits_recorded_same_undos; [|apply bits_recorded_lock_transition].
      reflexivity.
  - unfold ToggleProtect. rewrite Hd. by apply bits_recorded_eq.
Qed.

(** X6. With a document, [ToggleProtect] first records a closed undo step that
    holds the container as it was, also when the prompt is then dismissed
    or the password refused; whatever follows in the log are
    [UNDOTYPE_BITS] entries, recorded after that [EndUndo]. Without a
    document the undo log stays as it is. *)
Theorem ToggleProtect_undo_log dialog doc op w :
  exists rest,
    undos (snd (ToggleProtect dialog doc op w)) =
      undos w
      ++ (if doc then [StartUndo; AddUndo UNDOTYPE_CHANGE_SMALL op; EndUndo] else [])
      ++ rest /\
    forallb is_bits_undo rest = true /\
    (doc = false -> rest = []).
Proof.
  destruct (bits_recorded_ToggleProtect dialog doc op w) as (rest & E & B & D).
  exists rest. rewrite E. split; [|by split].
  destruct doc; cbn [undo_recorded add_undos undos]; by rewrite <- ?app_assoc.
Qed.

Lemma HideNodes_frame op doc hide w :
  nbits (fst (HideNodes op doc hide w)) = nbits op /\
  bits (fst (HideNodes op doc hide w)) = bits op /\
  kind (fst (HideNodes op doc hide w)) = kind op /\
  GetType (fst (HideNodes op doc hide w)) = GetType op /\
  length (down (fst (HideNodes op doc hide w))) = length (down op) /\
  length (tags (fst (HideNodes op doc hide w))) = length (tags op).
Proof.
  rewrite HideNodes_tags, HideNodes_down, HideHierarchy_fst_same_level, HideNodes_fst.
  cbn zeta. destruct (negb hide || _), op; cbn; by rewrite ?length_map.
Qed.

Lemma fold_hide_link_length h links : forall mats : list BaseList2D,
  length (fold_left (hide_link h) links mats) = length mats.
Proof.
  induction links as [|d l IH]; intros mats; [reflexivity|].
  cbn [fold_left]. rewrite IH. unfold hide_link.
  destruct (GetLink_Mbase d mats); [apply length_alter|reflexivity].
Qed.

Lemma HideNodes_materials_length op doc hide w :
  length (materials (snd (HideNodes op doc hide w))) = length (materials w).
Proof.
  rewrite HideNodes_materials. destruct (negb hide || _); [|reflexivity].
  by rewrite HideMaterials_materials, fold_hide_link_length.
Qed.

Lemma ToggleProtect_type_and_parameters dialog doc op w :
  GetType (fst (ToggleProtect dialog doc op w)) = GetType op /\
  GetDataInstance (fst (ToggleProtect dialog doc op w)) = GetDataInstance op.
Proof.
  assert (Hnodes : forall d hide w1,
    GetType (fst (HideNodes (set_nodedata d op) doc hide w1)) = GetType op /\
    GetDataInstance (fst (HideNodes (set_nodedata d op) doc hide w1)) = GetDataInstance op).
  { intros d hide w1. rewrite HideNodes_GetDataInstance.
    by destruct (HideNodes_frame (set_nodedata d op) doc hide w1) as (_ & _ & _ & -> & _). }
  destruct (GetNodeData op) as [this|] eqn:Hd.
  - destruct (m_protected this) eqn:Hp.
    + rewrite (ToggleProtect_locked dialog doc op w this Hd Hp). cbn zeta.
      destruct (String.eqb _ (HashString EmptyString)); [apply Hnodes|].
      destruct (dialog true true) as [pw|]; [|by split].
      destruct (String.eqb _ _); [apply Hnodes|by split].
    + rewrite (ToggleProtect_unlocked dialog doc op w this Hd Hp). cbn zeta.
      destruct (dialog false true) as [pw|]; [apply Hnodes|by split].
  - unfold ToggleProtect. by rewrite Hd.
Qed.

(** X7. Of the container itself [ToggleProtect] changes the lock fields at
    most: its own six bits, its bit field (so its selection), kind, type,
    parameters and icon stay, and so do the numbers of its children, of
    its tags and of the materials of the document. *)
Theorem ToggleProtect_keeps_container dialog doc op w :
  nbits (fst (ToggleProtect dialog doc op w)) = nbits op /\
  bits (fst (ToggleProtect dialog doc op w)) = bits op /\
  kind (fst (ToggleProtect dialog doc op w)) = kind op /\
  GetType (fst (ToggleProtect dialog doc op w)) = GetType op /\
  GetDataInstance (fst (ToggleProtect dialog doc op w)) = GetDataInstance op /\
  m_customIcon <$> GetNodeData (fst (ToggleProtect dialog doc op w))
    = m_customIcon <$> GetNodeData op /\
  length (down (fst (ToggleProtect dialog doc op w))) = length (down op) /\
  length (tags (fst (ToggleProtect dialog doc op w))) = length (tags op) /\
  length (materials (snd (ToggleProtect dialog doc op w))) = length (materials w).
Proof.
  assert (Hframe : forall d w1,
    materials w1 = materials w ->
    forall hide (d' : ContainerObject),
    m_customIcon d' = m_customIcon d -> GetNodeData op = Some d ->
    let r := HideNodes (set_nodedata (Some d') op) doc hide w1 in
    nbits (fst r) = nbits op /\ bits (fst r) = bits op /\ kind (fst r) = kind op /\
    GetType (fst r) = GetType op /\ GetDataInstance (fst r) = GetDataInstance op /\
    m_customIcon <$> GetNodeData (fst r) = m_customIcon <$> GetNodeData op /\
    length (down (fst r)) = length (down op) /\
    length (tags (fst r)) = length (tags op) /\
    length (materials (notify_change (snd r))) = length (materials w)).
  { intros d w1 Hw1 hide d' Hi Hd. cbn zeta.
    destruct (HideNodes_frame (set_nodedata (Some d') op) doc hide w1)
      as (-> & -> & -> & -> & -> & ->).
    rewrite HideNodes_GetDataInstance, HideNodes_GetNodeData, materials_notify_change,
      HideNodes_materials_length, Hw1, Hd.
    cbn. by rewrite Hi. }
  destruct (GetNodeData op) as [this|] eqn:Hd.
  - destruct (m_protected this) eqn:Hp.
    + rewrite (ToggleProtect_locked dialog doc op w this Hd Hp). cbn zeta.
      destruct (String.eqb _ (HashString EmptyString)).
      { apply (Hframe this); auto using materials_undo_recorded. }
      destruct (dialog true true) as [pw|].
      * destruct (String.eqb _ _).
        -- apply (Hframe this); auto. cbn [log_event materials].
           apply materials_undo_recorded.
        -- cbn [fst snd notify_change log_event materials].
           by rewrite materials_undo_recorded, Hd.
      * cbn [fst snd notify_change log_event materials].
        by rewrite materials_undo_recorded, Hd.
    + rewrite (ToggleProtect_unlocked dialog doc op w this Hd Hp). cbn zeta.
      destruct (dialog false true) as [pw|].
      * apply (Hframe this); auto. cbn [log_event materials].
        apply materials_undo_recorded.
      * cbn [fst snd log_event materials]. by rewrite materials_undo_recorded, Hd.
  - unfold ToggleProtect. rewrite Hd. cbn [fst snd].
    destruct doc; by rewrite Hd.
Qed.

Lemma ContainerIsProtected_container o this hash :
  IsContainer o this ->
  ContainerIsProtected (Some o) (Some hash) =
  if m_protected this then (true, Some (m_protectionHash this)) else (false, Some hash).
Proof.
  intros [Ht Hd]. unfold ContainerIsProtected. by rewrite Ht, Z.eqb_refl, Hd.
Qed.

Lemma IsContainer_HideNodes o this doc hide w :
  IsContainer o this -> IsContainer (fst (HideNodes o doc hide w)) this.
Proof.
  intros [Ht Hd]. split.
  - by destruct (HideNodes_frame o doc hide w) as (_ & _ & _ & -> & _).
  - by rewrite HideNodes_GetNodeData.
Qed.

Lemma new_events_lock_transition this pw op doc w0 w :
  trace w = trace w0 ++ [EvPasswordDialog false true (Some pw)] ->
  new_events w0 (snd (lock_transition this pw op doc w)) =
  [EvPasswordDialog false true (Some pw);
   EvMessage_MSG_CHANGE; EvSetDirty_DESCRIPTION; EvEventAdd].
Proof.
  intros E. apply new_events_app. rewrite trace_lock_transition, E.
  by rewrite <- app_assoc.
Qed.

(** X8. Locking through the prompt: for an unlocked container and an entered
    password, [ToggleProtect] leaves a container that
    [ContainerIsProtected] reports as protected under the hash of that
    password, with every visited node below it hidden and deselected; it
    shows the one prompt and signals the change. *)
Theorem ToggleProtect_locks dialog doc op w this password hash :
  IsContainer op this ->
  m_protected this = false ->
  dialog false true = Some password ->
  ContainerIsProtected (Some (fst (ToggleProtect dialog doc op w))) (Some hash)
    = (true, Some (HashString password)) /\
  toggled true (down op) (down (fst (ToggleProtect dialog doc op w))) /\
  new_events w (snd (ToggleProtect dialog doc op w)) =
    [EvPasswordDialog false true (Some password);
     EvMessage_MSG_CHANGE; EvSetDirty_DESCRIPTION; EvEventAdd].
Proof.
  intros [Ht Hd] Hp Hans.
  rewrite (ToggleProtect_unlocked dialog doc op w this Hd Hp). cbn zeta. rewrite Hans.
  split; [|split].
  - unfold lock_transition. cbn [fst].
    rewrite (ContainerIsProtected_container _
               (set_protectionHash (HashString password) (set_protected true this))).
    + reflexivity.
    + apply IsContainer_HideNodes. split; [exact Ht|reflexivity].
  - unfold lock_transition. cbn [fst].
    rewrite HideNodes_down, HideHierarchy_fst_same_level. apply toggled_fmap.
  - apply new_events_lock_transition. cbn [log_event trace].
    by rewrite trace_undo_recorded.
Qed.

(** X9. After a successful [ContainerProtect], [ContainerIsProtected] reports
    the container as protected and hands out the stored hash: the given
    hash when that is non-empty, else the hash of the password. A second
    [ContainerProtect] fails and changes nothing, whatever its arguments. *)
Theorem ContainerProtect_then_protected o this pass hash packup w out pass' hash' packup' :
  IsContainer o this ->
  m_protected this = false ->
  exists o' w',
    ContainerProtect (Some o) pass hash packup w = (true, Some o', w') /\
    ContainerIsProtected (Some o') (Some out)
      = (true, Some (if IsEmpty hash then HashString pass else hash)) /\
    ContainerProtect (Some o') pass' hash' packup' w' = (false, Some o', w').
Proof.
  intros [Ht Hd] Hp.
  set (data := set_protectionHash (if IsEmpty hash then HashString pass else hash)
                 (set_protected true this)).
  assert (Hc : IsContainer (set_nodedata (Some data) o) data) by (by split).
  assert (Hlocked : forall o', IsContainer o' data ->
            ContainerIsProtected (Some o') (Some out)
              = (true, Some (if IsEmpty hash then HashString pass else hash)) /\
            ContainerProtect (Some o') pass' hash' packup' w
              = (false, Some o', w) /\
            forall w', ContainerProtect (Some o') pass' hash' packup' w'
              = (false, Some o', w')).
  { intros o' Hc'. rewrite (ContainerIsProtected_container o' data) by exact Hc'.
    destruct Hc' as [Ht' Hd']. unfold ContainerProtect.
    rewrite Ht', Z.eqb_refl, Hd'. by repeat split. }
  unfold ContainerProtect. rewrite Ht, Z.eqb_refl, Hd, Hp. cbn [negb]. fold data.
  destruct packup.
  - destruct (HideNodes (set_nodedata (Some data) o) false true w) as [o' w'] eqn:E.
    exists o', w'. split; [reflexivity|].
    assert (Hc' : IsContainer o' data).
    { replace o' with (fst (HideNodes (set_nodedata (Some data) o) false true w))
        by (by rewrite E).
      by apply IsContainer_HideNodes. }
    destruct (Hlocked o' Hc') as (Hq & _ & Hr). split; [exact Hq|exact (Hr w')].
  - exists (set_nodedata (Some data) o), w. split; [reflexivity|].
    destruct (Hlocked _ Hc) as (Hq & Hr & _). split; [exact Hq|exact Hr].
Qed.

(** X10. A container locked by [ContainerProtect] with a password and no
    precomputed hash is unlocked by [ToggleProtect] when the prompt answers
    that password: the container is unlocked again and its children and
    tags are those of a revealing traversal, whether or not the lock had
    hidden them. *)
Theorem ContainerProtect_then_ToggleProtect o this pass packup w dialog doc :
  IsContainer o this ->
  m_protected this = false ->
  dialog true true = Some pass ->
  exists o1 w1,
    ContainerProtect (Some o) pass EmptyString packup w = (true, Some o1, w1) /\
    m_protected <$> GetNodeData (fst (ToggleProtect dialog doc o1 w1)) = Some false /\
    down (fst (ToggleProtect dialog doc o1 w1)) = map (turned false) (down o) /\
    tags (fst (ToggleProtect dialog doc o1 w1)) = map (turned false) (tags o).
Proof.
  intros [Ht Hd] Hp Hans.
  set (data := set_protectionHash (HashString pass) (set_protected true this)).
  assert (Hrun : forall o1 w1,
    GetNodeData o1 = Some data ->
    m_protected <$> GetNodeData (fst (ToggleProtect dialog doc o1 w1)) = Some false /\
    down (fst (ToggleProtect dialog doc o1 w1)) = map (turned false) (down o1) /\
    tags (fst (ToggleProtect dialog doc o1 w1)) = map (turned false) (tags o1)).
  { intros o1 w1 Hd1.
    destruct (ToggleProtect_match dialog doc o1 w1 data pass Hd1 eq_refl Hans eq_refl)
      as (w2 & _ & ->).
    rewrite GetNodeData_unlock_transition. unfold unlock_transition. cbn [fst].
    by rewrite HideNodes_down, HideNodes_tags, HideHierarchy_fst_same_level. }
  unfold ContainerProtect. rewrite Ht, Z.eqb_refl, Hd, Hp. cbn [negb IsEmpty]. fold data.
  destruct packup.
  - pose proof (HideNodes_GetNodeData (set_nodedata (Some data) o) false true w) as Hn.
    pose proof (HideNodes_down (set_nodedata (Some data) o) false true w) as Hdn.
    pose proof (HideNodes_tags (set_nodedata (Some data) o) false true w) as Htg.
    destruct (HideNodes (set_nodedata (Some data) o) false true w) as [o1 w1].
    cbn [fst] in Hn, Hdn, Htg. exists o1, w1. split; [reflexivity|].
    destruct (Hrun o1 w1 Hn) as (-> & -> & ->). split; [reflexivity|].
    rewrite Hdn, Htg, HideHierarchy_fst_same_level. cbn [negb orb set_nodedata down tags].
    split.
    + rewrite map_map. apply map_ext. intros. apply turned_turned.
    + cbn [GetDataInstance]. destruct (GetBool NRCONTAINER_HIDE_TAGS _); [|reflexivity].
      rewrite map_map. apply map_ext. intros. apply turned_turned.
  - exists (set_nodedata (Some data) o), w. split; [reflexivity|].
    by destruct (Hrun (set_nodedata (Some data) o) w eq_refl) as (-> & -> & ->).
Qed.

(** X11. A locked container whose stored hash is the digest of no password, as
    a precomputed hash given to [ContainerProtect] can be, is never
    unlocked by [ToggleProtect]: whatever the prompt answers, the container
    and the materials are returned as they were. *)
Theorem ToggleProtect_never_unlocks_foreign_hash dialog doc op w this :
  GetNodeData op = Some this ->
  m_protected this = true ->
  (forall password, HashString password <> m_protectionHash this) ->
  fst (ToggleProtect dialog doc op w) = op /\
  materials (snd (ToggleProtect dialog doc op w)) = materials w.
Proof.
  intros Hd Hp Hforeign.
  rewrite (ToggleProtect_locked dialog doc op w this Hd Hp). cbn zeta.
  destruct (String.eqb_spec (m_protectionHash this) (HashString EmptyString)) as [E|_].
  { by destruct (Hforeign EmptyString). }
  destruct (dialog true true) as [pw|].
  - destruct (String.eqb_spec (m_protectionHash this) (HashString pw)) as [E|_].
    { by destruct (Hforeign pw). }
    cbn [fst snd notify_change log_event materials]. by rewrite materials_undo_recorded.
  - cbn [fst snd notify_change log_event materials]. by rewrite materials_undo_recorded.
Qed.

(** X12. A container locked through the prompt with the empty password is
    unlocked by the next [ToggleProtect] without a prompt, whatever the
    prompt would answer, a dismissal included. *)
Theorem ToggleProtect_empty_password dialog1 dialog2 doc op w this :
  GetNodeData op = Some this ->
  m_protected this = false ->
  dialog1 false true = Some EmptyString ->
  let r1 := ToggleProtect dialog1 doc op w in
  let r2 := ToggleProtect dialog2 doc (fst r1) (snd r1) in
  m_protected <$> GetNodeData (fst r1) = Some true /\
  m_protected <$> GetNodeData (fst r2) = Some false /\
  forallb (fun e => negb (is_prompt e)) (new_events (snd r1) (snd r2)) = true.
Proof.
  intros Hd Hp Hans. cbn zeta.
  rewrite (ToggleProtect_unlocked dialog1 doc op w this Hd Hp). cbn zeta. rewrite Hans.
  set (w1 := log_event _ _).
  pose proof (GetNodeData_lock_transition this EmptyString op doc w1) as Hd1.
  rewrite Hd1. split; [reflexivity|].
  rewrite (ToggleProtect_locked dialog2 doc _ _ _ Hd1 eq_refl). cbn zeta.
  cbn [m_protectionHash set_protectionHash]. rewrite String.eqb_refl.
  rewrite GetNodeData_unlock_transition. split; [reflexivity|].
  rewrite (new_events_app _ _ [EvMessage_MSG_CHANGE; EvSetDirty_DESCRIPTION; EvEventAdd]);
    [reflexivity|].
  by rewrite trace_unlock_transition, trace_undo_recorded.
Qed.

(** X13. For a locked container, [ToggleProtect] shows the invalid-password
    message exactly when the prompt was shown and answered with a password
    whose hash is not the stored one: not on a dismissal, not on a match,
    and not when the stored hash is that of the empty password. *)
Theorem ToggleProtect_reports_refusal dialog doc op w this :
  GetNodeData op = Some this ->
  m_protected this = true ->
  (In EvMessageDialog_PASSWORD_INVALID
      (new_events w (snd (ToggleProtect dialog doc op w))) <->
   m_protectionHash this <> HashString EmptyString /\
   exists password,
     dialog true true = Some password /\
     HashString password <> m_protectionHash this).
Proof.
  intros Hd Hp.
  rewrite (ToggleProtect_locked dialog doc op w this Hd Hp). cbn zeta.
  destruct (String.eqb_spec (m_protectionHash this) (HashString EmptyString)) as [E|NE].
  - rewrite (new_events_app _ _ [EvMessage_MSG_CHANGE; EvSetDirty_DESCRIPTION; EvEventAdd])
      by (by rewrite trace_unlock_transition, trace_undo_recorded).
    cbn. split; [intuition discriminate|]. by intros [? _].
  - destruct (dialog true true) as [pw|].
    + destruct (String.eqb_spec (m_protectionHash this) (HashString pw)) as [E|NE'].
      * rewrite (new_events_app _ _
          [EvPasswordDialog true true (Some pw);
           EvMessage_MSG_CHANGE; EvSetDirty_DESCRIPTION; EvEventAdd]).
        -- cbn. split; [intuition discriminate|].
           intros (_ & pw' & [= <-] & Hne). by destruct Hne.
        -- rewrite trace_unlock_transition. cbn [log_event trace].
           by rewrite trace_undo_recorded, <- app_assoc.
      * rewrite (new_events_app _ _
          [EvPasswordDialog true true (Some pw); EvMessageDialog_PASSWORD_INVALID;
           EvMessage_MSG_CHANGE; EvSetDirty_DESCRIPTION; EvEventAdd]).
        -- cbn. split; [|by auto]. intros _. split; [exact NE|].
           exists pw. split; [reflexivity|]. by intros E.
        -- cbn [snd]. rewrite trace_notify_change. cbn [log_event trace].
           by rewrite trace_undo_recorded, <- !app_assoc.
    + rewrite (new_events_app _ _
        [EvPasswordDialog true true None;
         EvMessage_MSG_CHANGE; EvSetDirty_DESCRIPTION; EvEventAdd]).
      * cbn. split; [intuition discriminate|]. by intros (_ & ? & ? & _).
      * cbn [snd]. rewrite trace_notify_change. cbn [log_event trace].
        by rewrite trace_undo_recorded, <- !app_assoc.
Qed.

(** ** Persistence *)

Lemma Read_record dst src rest level :
  Read dst (record_at level src ++ rest) level =
  (true,
   mkContainerObject (m_customIcon src)
     (if 1000 <=? level then m_protected src else m_protected dst)
     (if (1000 <=? level) && m_protected src
      then m_protectionHash src else m_protectionHash dst),
   rest).
Proof.
  unfold Read, record_at, version0_record, version1000_record, super_Read.
  cbn [negb]. destruct (m_customIcon src) as [bmp|]; cbn;
    destruct (1000 <=? level); cbn; [destruct (m_protected src)| |destruct (m_protected src)|];
    reflexivity.
Qed.

Lemma Read_inversion dst hf level dst' rest :
  Read dst hf level = (true, dst', rest) ->
  hf = record_at level dst' ++ rest.
Proof.
  unfold Read, record_at, version0_record, version1000_record, super_Read,
    ReadBool, ReadImage, ReadString.
  cbn [negb]. intros HR.
  destruct hf as [|[hasImage| |] hf]; try discriminate.
  destruct hasImage.
  - destruct hf as [|[| |bmp] hf]; try discriminate. cbn in HR.
    destruct (1000 <=? level).
    + destruct hf as [|[p| |] hf]; try discriminate. cbn in HR. destruct p.
      * destruct hf as [|[|h|] hf]; try discriminate. by injection HR as <- <-.
      * by injection HR as <- <-.
    + by injection HR as <- <-.
  - cbn in HR. destruct (1000 <=? level).
    + destruct hf as [|[p| |] hf]; try discriminate. cbn in HR. destruct p.
      * destruct hf as [|[|h|] hf]; try discriminate. by injection HR as <- <-.
      * by injection HR as <- <-.
    + by injection HR as <- <-.
Qed.

Lemma Write_record src : Write src [] = (true, record_at 1000 src).
Proof.
  unfold Write, record_at, version0_record, version1000_record,
    WriteBool, WriteImage, WriteString, super_Write. cbn [negb].
  by destruct (m_customIcon src), (m_protected src).
Qed.

(** X14. [Read] consumes one record and nothing more. A record written by
    [Write] and followed by other data is read back at level 1000 or more
    with exactly that data left; and whenever [Read] succeeds at such a
    level, what it consumed is the record [Write] emits for the members it
    produced. *)
Theorem Read_consumes_one_record dst level :
  1000 <= level ->
  (forall src rest,
     exists dst',
       Read dst (snd (Write src []) ++ rest) level = (true, dst', rest) /\
       m_customIcon dst' = m_customIcon src /\
       m_protected dst' = m_protected src) /\
  (forall hf dst' rest,
     Read dst hf level = (true, dst', rest) ->
     hf = snd (Write dst' []) ++ rest).
Proof.
  intros Hl. apply Z.leb_le in Hl. split.
  - intros src rest. rewrite Write_record. cbn [snd].
    assert (E : record_at 1000 src = record_at level src)
      by (unfold record_at; by rewrite Hl).
    rewrite E, Read_record, Hl. eauto.
  - intros hf dst' rest HR. apply Read_inversion in HR.
    rewrite Write_record. cbn [snd]. unfold record_at in *. by rewrite Hl in HR.
Qed.

(** X15. [Read] succeeds exactly on a stream that starts with a record of the
    layout of its level: the icon flag, the image when the flag is set,
    and from level 1000 on the lock flag, with the hash when that flag is
    set. On an empty or truncated stream, on a value of another type, and
    at level 1000 on a record that ends after the icon part, it returns
    [false]. *)
Theorem Read_accepts_records_only dst hf level :
  fst (fst (Read dst hf level)) = true <->
  exists this rest, hf = record_at level this ++ rest.
Proof.
  split.
  - destruct (Read dst hf level) as [[ok dst'] rest] eqn:HR. cbn [fst].
    intros ->. apply Read_inversion in HR. eauto.
  - intros (this & rest & ->). by rewrite Read_record.
Qed.

(** ** Initialisation *)

Lemma info_id_neq id :
  is_info_id id = false ->
  NRCONTAINER_INFO_NAME <> id /\ NRCONTAINER_INFO_VERSION <> id /\
  NRCONTAINER_INFO_URL <> id /\ NRCONTAINER_INFO_AUTHOR <> id /\
  NRCONTAINER_INFO_AUTHOR_EMAIL <> id /\ NRCONTAINER_INFO_DESCRIPTION <> id.
Proof.
  unfold is_info_id. rewrite !orb_false_iff, !Z.eqb_neq. intuition congruence.
Qed.

(** The parameters [Init] leaves in the container [bc]. *)
Lemma Init_parameters this node :
  exists bc,
    Init this (Some node) =
      (true, mkContainerObject None false EmptyString, Some (set_data bc node)) /\
    (forall id, is_info_id id = true -> GetString id bc = EmptyString) /\
    (flag_ids_distinct ->
     GetBool NRCONTAINER_HIDE_TAGS bc = false /\
     GetBool NRCONTAINER_HIDE_MATERIALS bc = true /\
     GetBool NRCONTAINER_GENERATOR_CHECKMARK bc = true).
Proof.
  eexists. split; [reflexivity|]. split.
  - intros id Hid. unfold GetString, SetString.
    repeat (rewrite lookup_insert; case_decide; [reflexivity|]).
    exfalso. revert Hid. unfold is_info_id.
    repeat match goal with H : _ <> id |- _ =>
      apply not_eq_sym, Z.eqb_neq in H; rewrite ?H; clear H end.
    discriminate.
  - intros (H1 & H2 & H3 & (? & ? & ? & ? & ? & ?)%info_id_neq
              & (? & ? & ? & ? & ? & ?)%info_id_neq
              & (? & ? & ? & ? & ? & ?)%info_id_neq).
    unfold GetBool, SetString, SetBool.
    repeat split.
    + rewrite !lookup_insert_ne by congruence. by rewrite lookup_insert_eq.
    + rewrite !lookup_insert_ne by congruence. by rewrite lookup_insert_eq.
    + rewrite !lookup_insert_ne by congruence. by rewrite lookup_insert_eq.
Qed.

Lemma referenced_set_data bc op mats :
  referenced (set_data bc op) mats = referenced op mats.
Proof. unfold referenced. by rewrite !texture_links_unfold. Qed.

(** X16. [Init] fails on a null node and changes nothing. On a node it resets
    the members to unlocked, with empty hash and no icon, whatever they
    were, and empties the six info strings. When the parameter ids are
    distinct it leaves [NRCONTAINER_HIDE_TAGS] unset and
    [NRCONTAINER_HIDE_MATERIALS] set, so that hiding a fresh container
    leaves its tags alone and hides the materials it references. *)
Theorem Init_defaults this node doc w :
  Init this None = (false, this, None) /\
  exists node',
    Init this (Some node) = (true, mkContainerObject None false EmptyString, Some node') /\
    (forall id, is_info_id id = true ->
       GetString id (GetDataInstance node') = EmptyString) /\
    (flag_ids_distinct ->
     GetBool NRCONTAINER_HIDE_TAGS (GetDataInstance node') = false /\
     GetBool NRCONTAINER_HIDE_MATERIALS (GetDataInstance node') = true /\
     tags (fst (HideNodes node' doc true w)) = tags node /\
     materials_toggled true node (materials w)
       (materials (snd (HideNodes node' doc true w)))).
Proof.
  split; [reflexivity|].
  destruct (Init_parameters this node) as (bc & -> & Hinfo & Hflags).
  exists (set_data bc node). split; [reflexivity|]. split; [exact Hinfo|].
  intros Hdist. destruct (Hflags Hdist) as (Ht & Hm & _).
  cbn [set_data GetDataInstance]. repeat split; try assumption.
  - rewrite HideNodes_tags. cbn [set_data GetDataInstance negb orb]. by rewrite Ht.
  - pose proof (HideNodes_materials_toggled (set_data bc node) doc true w) as Htog.
    cbn [set_data GetDataInstance negb orb] in Htog. specialize (Htog Hm).
    intros j. specialize (Htog j). by rewrite referenced_set_data in Htog.
Qed.

(** ** The info mask *)

(** X17. For a container, [_hook_GetInfo] never asks the replaced function: a
    container fresh from [Init] reports [OBJECT_GENERATOR] when the
    parameter ids are distinct (that of the developer info included), and
    [ToggleProtect] never changes what a container reports. For a null node or a node of another type it is
    the replaced function. *)
Theorem hook_GetInfo_of_container orig this node dialog doc op w :
  (GetType node = Ocontainer -> flag_ids_distinct ->
   NRCONTAINER_GENERATOR_CHECKMARK <> NRCONTAINER_DEV_INFO ->
   exists node',
     snd (Init this (Some node)) = Some node' /\
     _hook_GetInfo orig (Some node') = OBJECT_GENERATOR) /\
  (GetType op = Ocontainer ->
   _hook_GetInfo orig (Some (fst (ToggleProtect dialog doc op w)))
     = _hook_GetInfo orig (Some op) /\
   forall orig', _hook_GetInfo orig' (Some op) = _hook_GetInfo orig (Some op)) /\
  (GetType op <> Ocontainer -> _hook_GetInfo orig (Some op) = orig (Some op)) /\
  _hook_GetInfo orig None = orig None.
Proof.
  split; [|split; [|split]].
  - intros Ht Hdist Hdev%Z.eqb_neq.
    destruct (Init_parameters this node) as (bc & -> & _ & Hflags).
    destruct (Hflags Hdist) as (_ & _ & Hg).
    exists (set_data bc node). split; [reflexivity|].
    unfold _hook_GetInfo, GetDParameter, GetParameter.
    cbn [set_data GetType GetDataInstance].
    rewrite Ht, Z.eqb_refl, Hdev. cbn [fst]. unfold GetBool in Hg.
    destruct (bc !! NRCONTAINER_GENERATOR_CHECKMARK) as [[]|]; try discriminate.
    cbn [GeData_GetBool]. by rewrite Hg.
  - intros Ht. unfold _hook_GetInfo, GetDParameter, GetParameter.
    destruct (ToggleProtect_type_and_parameters dialog doc op w) as (-> & ->).
    by rewrite Ht, Z.eqb_refl.
  - intros Ht. unfold _hook_GetInfo.
    apply Z.eqb_neq in Ht. by rewrite Ht.
  - reflexivity.
Qed.

(** ** Copies *)

(** X18. When the base class succeeds, [CopyTo] makes icon, lock flag and hash
    of the destination those of the source, whatever the destination held
    (an icon of the destination is dropped when the source has none), so
    the copy of a locked container is locked under the same hash and
    writes the same record; when the base class fails the destination is
    left as it is. *)
Theorem CopyTo_copies_lock_state super_CopyTo this dest hf :
  CopyTo super_CopyTo this dest = (super_CopyTo, if super_CopyTo then this else dest) /\
  (super_CopyTo = true ->
   Write (snd (CopyTo super_CopyTo this dest)) hf = Write this hf).
Proof.
  assert (E : CopyTo super_CopyTo this dest
              = (super_CopyTo, if super_CopyTo then this else dest)).
  { unfold CopyTo. destruct super_CopyTo; [|reflexivity]. cbn [negb].
    by destruct this as [[?|] ? ?], dest as [[?|] ? ?]. }
  split; [exact E|]. intros ->. by rewrite E.
Qed.

(** ** The info parameters *)

Lemma testbit_set_param_set flags i :
  Z.testbit (Z.lor flags DESCFLAGS_SET_PARAM_SET) i
  = if i =? 1 then true else Z.testbit flags i.
Proof.
  destruct (Z.neg_nonneg_cases i) as [Hneg|Hpos].
  - rewrite !Z.testbit_neg_r by lia. destruct (Z.eqb_spec i 1); [lia|reflexivity].
  - rewrite Z.lor_spec. change DESCFLAGS_SET_PARAM_SET with (2 ^ 1).
    rewrite Z.pow2_bits_eqb by lia. rewrite (Z.eqb_sym 1 i).
    destruct (i =? 1); [apply orb_true_r|apply orb_false_r].
Qed.

(** X19. The write guard and the enabling agree. While the container is locked,
    each of the six info parameters is reported as set, with the one flag
    [DESCFLAGS_SET_PARAM_SET] added and without asking the base class,
    and is disabled; while it is unlocked they are enabled and written by
    the base class; any other parameter is left to the base class by both
    calls, locked or not. *)
Theorem info_parameters_guarded super_Set super_Enable this id data flags :
  (is_info_id id = true -> m_protected this = true ->
   fst (SetDParameter super_Set this id data flags) = true /\
   (forall i, Z.testbit (snd (SetDParameter super_Set this id data flags)) i
              = if i =? 1 then true else Z.testbit flags i) /\
   GetDEnabling super_Enable this id = false) /\
  (is_info_id id = true -> m_protected this = false ->
   SetDParameter super_Set this id data flags = super_Set id data flags /\
   GetDEnabling super_Enable this id = true) /\
  (is_info_id id = false ->
   SetDParameter super_Set this id data flags = super_Set id data flags /\
   GetDEnabling super_Enable this id = super_Enable id).
Proof.
  unfold SetDParameter, GetDEnabling.
  repeat split; intros; repeat match goal with H : _ = _ |- _ => rewrite H end;
    cbn [fst snd negb]; auto using testbit_set_param_set.
Qed.

(** ** Description commands and messages *)

Lemma set_nodedata_same op this :
  GetNodeData op = Some this -> set_nodedata (Some this) op = op.
Proof. intros <-. by destruct op. Qed.

(** X20. While the container is locked, a description command other than the
    pack-up command returns and changes neither the container nor the
    materials, opens no dialog and shows no message, whatever the file
    selector, the allocator and the image loader would answer: the icon
    cannot be loaded or cleared. *)
Theorem OnDescriptionCommand_locked host dialog doc id op w this :
  GetNodeData op = Some this ->
  m_protected this = true ->
  id <> NRCONTAINER_PACKUP ->
  OnDescriptionCommand host dialog doc id op w =
  Some (op, add_undos (AutoUndo_leave host doc) (add_undos (AutoUndo_enter host doc) w),
        []).
Proof.
  intros Hd Hp Hid%Z.eqb_neq. unfold OnDescriptionCommand.
  rewrite Hid, Hd, Hp.
  by destruct (id =? NRCONTAINER_ICON_LOAD), (id =? NRCONTAINER_ICON_CLEAR).
Qed.

(** X21. The icon commands on an unlocked container change the icon and
    nothing else of the node. Clearing removes the icon. Loading keeps
    the icon when the file selector is dismissed; reports out of memory
    and changes nothing when there is no icon and the first allocation
    fails; removes the icon, one that was there before included, and
    reports an invalid image when the chosen file cannot be read. When the
    file is read, the image scaled to the icon size is stored if the
    allocation of the destination succeeds, and the command does not
    return if it fails. *)
Theorem OnDescriptionCommand_icon host dialog doc op w this :
  GetNodeData op = Some this ->
  m_protected this = false ->
  NRCONTAINER_ICON_LOAD <> NRCONTAINER_PACKUP ->
  NRCONTAINER_ICON_CLEAR <> NRCONTAINER_PACKUP ->
  NRCONTAINER_ICON_CLEAR <> NRCONTAINER_ICON_LOAD ->
  let world := add_undos (AutoUndo_leave host doc) (add_undos (AutoUndo_enter host doc) w) in
  let with_icon icon := set_nodedata (Some (set_customIcon icon this)) op in
  OnDescriptionCommand host dialog doc NRCONTAINER_ICON_CLEAR op w
    = Some (with_icon None, world, []) /\
  OnDescriptionCommand host dialog doc NRCONTAINER_ICON_LOAD op w =
    match FileSelect host with
    | None => Some (op, world, [])
    | Some flname =>
      match m_customIcon this with
      | None =>
        if Alloc host 0%nat then
          match Init_file host flname with
          | None => Some (with_icon None, world, [IDS_INFO_INVALIDIMAGE])
          | Some img =>
            if Alloc host 1%nat
            then Some (with_icon (Some (ScaleIt host img CONTAINEROBJECT_ICONSIZE)),
                       world, [])
            else None
          end
        else Some (op, world, [IDS_INFO_OUTOFMEMORY])
      | Some _ =>
        match Init_file host flname with
        | None => Some (with_icon None, world, [IDS_INFO_INVALIDIMAGE])
        | Some img =>
          if Alloc host 0%nat
          then Some (with_icon (Some (ScaleIt host img CONTAINEROBJECT_ICONSIZE)),
                     world, [])
          else None
        end
      end
    end.
Proof.
  intros Hd Hp H1%Z.eqb_neq H2%Z.eqb_neq H3%Z.eqb_neq. cbn zeta.
  unfold OnDescriptionCommand. rewrite H1, H2, H3, !Z.eqb_refl, Hd, Hp.
  split; [reflexivity|]. unfold icon_load.
  destruct (FileSelect host) as [flname|]; [|by rewrite set_nodedata_same].
  destruct this as [[bmp|] p h]; cbn.
  - destruct (Init_file host flname); [|reflexivity]. by destruct (Alloc host 0%nat).
  - destruct (Alloc host 0%nat); cbn.
    + destruct (Init_file host flname); [|reflexivity]. by destruct (Alloc host 1%nat).
    + by rewrite (set_nodedata_same op _ Hd).
Qed.




(** ** The stored hash after an unlock *)

(** X23. After an unlock the hash stays in the members, but nothing hands it
    out: [ContainerIsProtected] returns [false] and leaves its out
    parameter as it was, and the record [Write] emits holds no hash. *)
Theorem unlocked_hash_stays_private dialog doc op w this password out :
  GetNodeData op = Some this ->
  m_protected this = true ->
  dialog true true = Some password ->
  HashString password = m_protectionHash this ->
  exists this',
    GetNodeData (fst (ToggleProtect dialog doc op w)) = Some this' /\
    m_protectionHash this' = m_protectionHash this /\
    ContainerIsProtected (Some (fst (ToggleProtect dialog doc op w))) (Some out)
      = (false, Some out) /\
    existsb is_hash_field (snd (Write this' [])) = false.
Proof.
  intros Hd Hp Hans Hhash.
  destruct (ToggleProtect_match dialog doc op w this password Hd Hp Hans Hhash)
    as (w1 & _ & ->).
  exists (set_protected false this).
  pose proof (GetNodeData_unlock_transition this op doc w1) as Hd'.
  split; [exact Hd'|]. split; [reflexivity|]. split.
  - unfold ContainerIsProtected. rewrite Hd'.
    by destruct (negb (GetType _ =? Ocontainer)).
  - rewrite Write_record. cbn [snd]. unfold record_at, version0_record, version1000_record.
    cbn. by destruct (m_customIcon this).
Qed.

End Further.

(** * The further properties on the samples *)

Lemma HideMaterials_nothing_referenced_witness :
  referenced Scene.N (materials Scene.world0) = [] /\
  HideMaterials (Sym := Scene.symbols) Scene.N true true Scene.world0 = Scene.world0.
Proof.
  split; [reflexivity|].
  apply (HideMaterials_nothing_referenced (Sym := Scene.symbols)
           Scene.N true true Scene.world0).
  reflexivity.
Defined.

Lemma HideNodes_materials_cross_boundaries_witness :
  visits (Sym := Scene.symbols) true (down Desk.outer) [0; 0]%nat = false /\
  exists m,
    materials Scene.world0 !! 1%nat = Some m /\
    materials (snd (HideNodes (Sym := Scene.symbols) Desk.outer true true Scene.world0))
      !! 1%nat = Some (turned (Sym := Scene.symbols) true m) /\
    shows true (turned (Sym := Scene.symbols) true m).
Proof.
  split; [reflexivity|].
  apply (HideNodes_materials_cross_boundaries (Sym := Scene.symbols)
           Desk.outer true true Scene.world0 [0; 0]%nat Desk.Z1
           (Scene.texture_tag (Some 1%nat)) (DA_ALIASLINK (Some 1%nat)) 1%nat);
    [reflexivity | left; reflexivity | reflexivity | reflexivity | reflexivity].
Defined.

Lemma Read_consumes_one_record_witness :
  1000 <= 1000 /\
  exists dst',
    Read (mkContainerObject None false EmptyString)
      (snd (Write (mkContainerObject (Some [1; 2]) true "#abc") []) ++ [HF_Bool true])
      1000
    = (true, dst', [HF_Bool true]) /\
    m_customIcon dst' = Some [1; 2] /\
    m_protected dst' = true.
Proof.
  split; [lia|].
  apply (proj1 (Read_consumes_one_record
                  (mkContainerObject None false EmptyString) 1000 ltac:(lia))
           (mkContainerObject (Some [1; 2]) true "#abc") [HF_Bool true]).
Defined.

Lemma ToggleProtect_locks_witness :
  IsContainer (Sym := Scene.symbols) Scene.A (mkContainerObject None false EmptyString) /\
  ContainerIsProtected (Sym := Scene.symbols)
    (Some (fst (ToggleProtect (Sym := Scene.symbols) (Scene.answers "abc") true
                  Scene.A Scene.world0))) (Some EmptyString)
  = (true, Some "#abc").
Proof.
  split; [split; reflexivity|].
  apply (ToggleProtect_locks (Sym := Scene.symbols) (Scene.answers "abc") true
           Scene.A Scene.world0 (mkContainerObject None false EmptyString)
           "abc" EmptyString);
    [split; reflexivity | reflexivity | reflexivity].
Defined.

Lemma ContainerProtect_then_protected_witness :
  exists o' w',
    ContainerProtect (Sym := Scene.symbols) (Some Scene.A) "abc" "given" true Scene.world0
      = (true, Some o', w') /\
    ContainerIsProtected (Sym := Scene.symbols) (Some o') (Some EmptyString)
      = (true, Some "given") /\
    ContainerProtect (Sym := Scene.symbols) (Some o') "xyz" EmptyString false w'
      = (false, Some o', w').
Proof.
  apply (ContainerProtect_then_protected (Sym := Scene.symbols)
           Scene.A (mkContainerObject None false EmptyString)
           "abc" "given" true Scene.world0 EmptyString "xyz" EmptyString false);
    [split; reflexivity | reflexivity].
Defined.

Lemma ContainerProtect_then_ToggleProtect_witness :
  exists o1 w1,
    ContainerProtect (Sym := Scene.symbols) (Some Scene.A) "abc" EmptyString true Scene.world0
      = (true, Some o1, w1) /\
    m_protected <$> GetNodeData
      (fst (ToggleProtect (Sym := Scene.symbols) (Scene.answers "abc") true o1 w1))
      = Some false /\
    down (fst (ToggleProtect (Sym := Scene.symbols) (Scene.answers "abc") true o1 w1))
      = map (turned (Sym := Scene.symbols) false) (down Scene.A) /\
    tags (fst (ToggleProtect (Sym := Scene.symbols) (Scene.answers "abc") true o1 w1))
      = map (turned (Sym := Scene.symbols) false) (tags Scene.A).
Proof.
  apply (ContainerProtect_then_ToggleProtect (Sym := Scene.symbols)
           Scene.A (mkContainerObject None false EmptyString)
           "abc" true Scene.world0 (Scene.answers "abc") true);
    [split; reflexivity | reflexivity | reflexivity].
Defined.

Lemma ToggleProtect_never_unlocks_foreign_hash_witness :
  (forall password, HashString (Symbols := Scene.symbols) password <> "given") /\
  fst (ToggleProtect (Sym := Scene.symbols) (Scene.answers "given") true
         (Scene.container (mkContainerObject None true "given") [] [Scene.X])
         Scene.world0)
  = Scene.container (mkContainerObject None true "given") [] [Scene.X].
Proof.
  split; [intros password; discriminate|].
  apply (ToggleProtect_never_unlocks_foreign_hash (Sym := Scene.symbols)
           (Scene.answers "given") true
           (Scene.container (mkContainerObject None true "given") [] [Scene.X])
           Scene.world0 (mkContainerObject None true "given"));
    [reflexivity | reflexivity | intros password; discriminate].
Defined.

Lemma ToggleProtect_empty_password_witness :
  m_protected <$> GetNodeData
    (fst (ToggleProtect (Sym := Scene.symbols) Scene.cancels true
            (fst (ToggleProtect (Sym := Scene.symbols) (Scene.answers EmptyString) true
                    Scene.A Scene.world0))
            (snd (ToggleProtect (Sym := Scene.symbols) (Scene.answers EmptyString) true
                    Scene.A Scene.world0))))
  = Some false.
Proof.
  apply (ToggleProtect_empty_password (Sym := Scene.symbols)
           (Scene.answers EmptyString) Scene.cancels true Scene.A Scene.world0
           (mkContainerObject None false EmptyString));
    reflexivity.
Defined.

Lemma ToggleProtect_reports_refusal_witness :
  In EvMessageDialog_PASSWORD_INVALID
    (new_events Scene.world0
       (snd (ToggleProtect (Sym := Scene.symbols) (Scene.answers "xyz") true
               Scene.locked_box Scene.world0))).
Proof.
  apply (proj2 (ToggleProtect_reports_refusal (Sym := Scene.symbols)
                  (Scene.answers "xyz") true Scene.locked_box Scene.world0
                  (mkContainerObject None true "#abc") eq_refl eq_refl)).
  split; [discriminate|]. exists "xyz". split; [reflexivity|discriminate].
Defined.

Lemma Read_accepts_records_only_witness :
  fst (fst (Read (mkContainerObject None false EmptyString)
              (record_at 1000 (mkContainerObject None true "#abc") ++ []) 1000)) = true /\
  fst (fst (Read (mkContainerObject None false EmptyString) [HF_Bool false] 1000)) <> true.
Proof.
  split.
  - apply (proj2 (Read_accepts_records_only (mkContainerObject None false EmptyString)
                    (record_at 1000 (mkContainerObject None true "#abc") ++ []) 1000)).
    exists (mkContainerObject None true "#abc"), []. reflexivity.
  - discriminate.
Defined.

Lemma flag_ids_distinct_sample :
  flag_ids_distinct (Sym := Scene.symbols).
Proof. repeat split; discriminate. Qed.

Lemma Init_defaults_witness :
  exists node',
    Init (Sym := Scene.symbols) (mkContainerObject (Some [9]) true "#abc")
      (Some Scene.locked_box)
      = (true, mkContainerObject None false EmptyString, Some node') /\
    GetBool (NRCONTAINER_HIDE_TAGS (Symbols := Scene.symbols)) (GetDataInstance node') = false /\
    GetBool (NRCONTAINER_HIDE_MATERIALS (Symbols := Scene.symbols)) (GetDataInstance node')
      = true.
Proof.
  destruct (proj2 (Init_defaults (Sym := Scene.symbols)
                     (mkContainerObject (Some [9]) true "#abc")
                     Scene.locked_box true Scene.world0))
    as (node' & E & _ & H).
  exists node'. split; [exact E|].
  destruct (H flag_ids_distinct_sample) as (Ht & Hm & _). by split.
Defined.

Lemma hook_GetInfo_of_container_witness :
  exists node',
    snd (Init (Sym := Scene.symbols) (mkContainerObject None false EmptyString)
           (Some Scene.A)) = Some node' /\
    _hook_GetInfo (Sym := Scene.symbols) (Cmd := Desk.commands) (fun _ => 0) (Some node')
      = OBJECT_GENERATOR.
Proof.
  apply (proj1 (hook_GetInfo_of_container (Sym := Scene.symbols) (Cmd := Desk.commands)
                  (fun _ => 0) (mkContainerObject None false EmptyString) Scene.A
                  Scene.cancels true Scene.A Scene.world0));
    [reflexivity | exact flag_ids_distinct_sample | discriminate].
Defined.

Lemma CopyTo_copies_lock_state_witness :
  Write (snd (CopyTo true (mkContainerObject None true "#abc")
                (mkContainerObject (Some [9]) false EmptyString))) []
  = Write (mkContainerObject None true "#abc") [].
Proof.
  apply (proj2 (CopyTo_copies_lock_state true (mkContainerObject None true "#abc")
                  (mkContainerObject (Some [9]) false EmptyString) [])).
  reflexivity.
Defined.

Lemma info_parameters_guarded_witness :
  fst (SetDParameter (Sym := Scene.symbols) (fun _ _ f => (false, f))
         (mkContainerObject None true "#abc") 1010 (DA_STRING "renamed") 0) = true /\
  GetDEnabling (Sym := Scene.symbols) (fun _ => true)
    (mkContainerObject None true "#abc") 1010 = false.
Proof.
  destruct (proj1 (info_parameters_guarded (Sym := Scene.symbols)
                     (fun _ _ f => (false, f)) (fun _ => true)
                     (mkContainerObject None true "#abc") 1010 (DA_STRING "renamed") 0)
              eq_refl eq_refl) as (Hs & _ & He).
  by split.
Defined.

Lemma OnDescriptionCommand_locked_witness :
  OnDescriptionCommand (Sym := Scene.symbols) (Cmd := Desk.commands)
    (Desk.host (Some "icon.png")) Scene.cancels true 1021 Desk.pictured_locked Scene.world0
  = Some (Desk.pictured_locked,
          add_undos [EndUndo] (add_undos [StartUndo] Scene.world0), []).
Proof.
  apply (OnDescriptionCommand_locked (Sym := Scene.symbols) (Cmd := Desk.commands)
           (Desk.host (Some "icon.png")) Scene.cancels true 1021
           Desk.pictured_locked Scene.world0 (mkContainerObject (Some [9]) true "#abc"));
    [reflexivity | reflexivity | discriminate].
Defined.

Lemma OnDescriptionCommand_icon_witness :
  OnDescriptionCommand (Sym := Scene.symbols) (Cmd := Desk.commands)
    (Desk.host (Some "broken.png")) Scene.cancels true 1021 Desk.pictured Scene.world0
  = Some (set_nodedata (Some (mkContainerObject None false EmptyString)) Desk.pictured,
          add_undos [EndUndo] (add_undos [StartUndo] Scene.world0),
          [IDS_INFO_INVALIDIMAGE]) /\
  OnDescriptionCommand (Sym := Scene.symbols) (Cmd := Desk.commands)
    (Desk.host_with (fun _ => false) (Some "icon.png")) Scene.cancels true 1021
    Desk.pictured Scene.world0
  = None.
Proof.
  split.
  - apply (proj2 (OnDescriptionCommand_icon (Sym := Scene.symbols) (Cmd := Desk.commands)
                    (Desk.host (Some "broken.png")) Scene.cancels true
                    Desk.pictured Scene.world0
                    (mkContainerObject (Some [9]) false EmptyString)
                    eq_refl eq_refl ltac:(discriminate) ltac:(discriminate)
                    ltac:(discriminate))).
  - apply (proj2 (OnDescriptionCommand_icon (Sym := Scene.symbols) (Cmd := Desk.commands)
                    (Desk.host_with (fun _ => false) (Some "icon.png")) Scene.cancels true
                    Desk.pictured Scene.world0
                    (mkContainerObject (Some [9]) false EmptyString)
                    eq_refl eq_refl ltac:(discriminate) ltac:(discriminate)
                    ltac:(discriminate))).
Defined.


Lemma unlocked_hash_stays_private_witness :
  exists this',
    GetNodeData
      (fst (ToggleProtect (Sym := Scene.symbols) (Scene.answers "abc") true
              Scene.locked_box Scene.world0)) = Some this' /\
    m_protectionHash this' = "#abc" /\
    ContainerIsProtected (Sym := Scene.symbols)
      (Some (fst (ToggleProtect (Sym := Scene.symbols) (Scene.answers "abc") true
                    Scene.locked_box Scene.world0))) (Some "out")
      = (false, Some "out") /\
    existsb is_hash_field (snd (Write this' [])) = false.
Proof.
  apply (unlocked_hash_stays_private (Sym := Scene.symbols) (Scene.answers "abc") true
           Scene.locked_box Scene.world0 (mkContainerObject None true "#abc") "abc" "out");
    reflexivity.
Defined.

(** * Further samples, evaluated *)

Example Read_refuses_short_streams :
  fst (fst (Read (mkContainerObject None false EmptyString) [] 0)) = false /\
  fst (fst (Read (mkContainerObject None false EmptyString) [HF_Bool true] 0)) = false /\
  fst (fst (Read (mkContainerObject None false EmptyString)
              (version0_record (Some [7])) 1000)) = false /\
  fst (fst (Read (mkContainerObject None false EmptyString)
              [HF_Bool false; HF_Bool true] 1000)) = false.
Proof. repeat split. Qed.

Example outer_lock_hides_inner_material :
  map hiddenb (materials
    (snd (ToggleProtect (Sym := Scene.symbols) (Scene.answers "abc") true
            Desk.outer Scene.world0))) = [false; true] /\
  map (fun n => map hiddenb (down n))
    (down (fst (ToggleProtect (Sym := Scene.symbols) (Scene.answers "abc") true
                  Desk.outer Scene.world0))) = [[false]].
Proof. split; vm_compute; reflexivity. Qed.

Example icon_load_outcomes :
  let load memory file :=
    option_map (fun r => (m_customIcon <$> GetNodeData (fst (fst r)), snd r))
      (OnDescriptionCommand (Sym := Scene.symbols) (Cmd := Desk.commands)
         (Desk.host_with memory file) Scene.cancels false 1021 Desk.pictured Scene.world0) in
  load (fun _ => true) None = Some (Some (Some [9]), []) /\
  load (fun _ => true) (Some "icon.png") = Some (Some (Some [64; 1; 2; 3]), []) /\
  load (fun _ => true) (Some "broken.png") = Some (Some None, [IDS_INFO_INVALIDIMAGE]) /\
  load (fun _ => false) (Some "broken.png") = Some (Some None, [IDS_INFO_INVALIDIMAGE]) /\
  load (fun _ => false) (Some "icon.png") = None.
Proof. repeat split. Qed.
